(** * aigonviewer: the process lifecycle manager (process_manager.py, cli.py)

    A shallow embedding of [get_pid_directory], [find_available_port],
    [is_process_running], [launch_server], [status_server], [kill_server]
    and of the exit status computed by [cli.main], over an explicit model
    of the operating system state these functions act on: the PID-record
    directory, the kernel's process table with the calling process and the
    process groups, the loopback ports and the terminal output. *)

From Stdlib Require Import ZArith Strings.String Strings.Ascii.
From stdpp Require Import gmap strings list fin_maps.

Local Open Scope string_scope.
Local Open Scope Z_scope.

(** ** Python exceptions and results *)

(** The exception classes the source raises, catches or lets escape.
    [OSError] carries its [errno]. [OverflowError] is what CPython raises
    when an integer argument does not fit the C type of a system call; it is
    neither an [OSError] nor a [ValueError]. [SignalExit] is no exception
    class: it stands for the end of the interpreter by a signal that it
    has sent to a target which includes itself; no handler of the source
    runs then, and the number of the signal is kept. *)
Inductive exn : Type :=
  | OSError (errno : Z)
  | ValueError
  | OverflowError
  | CalledProcessError
  | KeyboardInterrupt
  | SignalExit (signo : Z).

Definition ESRCH : Z := 3.
Definition EPERM : Z := 1.
Definition ENOENT : Z := 2.
Definition EACCES : Z := 13.
Definition EISDIR : Z := 21.
Definition EADDRINUSE : Z := 98.
Definition EAGAIN : Z := 11.

Definition is_OSError (e : exn) : bool :=
  match e with OSError _ => true | _ => false end.

Definition is_ValueError (e : exn) : bool :=
  match e with ValueError => true | _ => false end.

(** [except Exception] catches everything but [KeyboardInterrupt]; the end
    of the interpreter is not caught by anything. *)
Definition is_Exception (e : exn) : bool :=
  match e with KeyboardInterrupt | SignalExit _ => false | _ => true end.

Inductive result (A : Type) : Type :=
  | Ret (a : A)
  | Raise (e : exn).
Arguments Ret {A} a.
Arguments Raise {A} e.

(** ** Python text: [str.strip], [int], [str] *)

Module PyText.

(** [str.strip] and [int] on ASCII text, which is what a launch writes
    into a record. On text with other characters Python also strips
    Unicode whitespace and reads Unicode decimal digits; statements about
    the text of a record therefore assume [ascii_text]. The whitespace of
    [str.strip()] within ASCII: TAB, LF, VT, FF, CR, the separators FS, GS,
    RS, US, and SPACE. *)
Definition is_space (c : ascii) : bool :=
  let n := nat_of_ascii c in
  ((9 <=? n)%nat && (n <=? 13)%nat) || ((28 <=? n)%nat && (n <=? 32)%nat).

Definition is_digit (c : ascii) : bool :=
  let n := nat_of_ascii c in (48 <=? n)%nat && (n <=? 57)%nat.

Definition digit_val (c : ascii) : Z := Z.of_nat (nat_of_ascii c - 48).

Definition is_ascii (c : ascii) : bool := (nat_of_ascii c <? 128)%nat.

Fixpoint ascii_text (s : string) : bool :=
  match s with
  | EmptyString => true
  | String c r => is_ascii c && ascii_text r
  end.

Fixpoint lstrip (s : string) : string :=
  match s with
  | EmptyString => EmptyString
  | String c r => if is_space c then lstrip r else s
  end.

Fixpoint rstrip (s : string) : string :=
  match s with
  | EmptyString => EmptyString
  | String c r =>
      match rstrip r with
      | EmptyString => if is_space c then EmptyString else String c EmptyString
      | r' => String c r'
      end
  end.

(** [s.strip()] *)
Definition strip (s : string) : string := rstrip (lstrip s).

(** CPython's default [sys.int_info.default_max_str_digits]: [int] refuses
    a decimal string with more digits than this. *)
Definition int_max_str_digits : nat := 4300.

(** The digit part of an integer literal, scanned left to right as
    CPython's [long_from_string_base] does: [acc] is the value read so
    far, [cnt] the number of digits, [prev] tells whether the previous
    character was a digit. An underscore is accepted only between two
    digits. *)
Fixpoint scan_digits (acc : Z) (cnt : nat) (prev : bool) (s : string)
  : option (Z * nat) :=
  match s with
  | EmptyString => if prev then Some (acc, cnt) else None
  | String c r =>
      if is_digit c then scan_digits (10 * acc + digit_val c) (S cnt) true r
      else if Ascii.eqb c "_" && prev then scan_digits acc cnt false r
      else None
  end.

Definition int_unsigned (s : string) : result Z :=
  match scan_digits 0 0 false s with
  | Some (v, cnt) =>
      if (cnt <=? int_max_str_digits)%nat then Ret v else Raise ValueError
  | None => Raise ValueError
  end.

Definition negate (r : result Z) : result Z :=
  match r with Ret v => Ret (- v) | Raise e => Raise e end.

(** [int(s)] for a string argument, base 10: surrounding whitespace is
    dropped, one optional sign follows, then the digits. *)
Definition int (s : string) : result Z :=
  match strip s with
  | String "-" r => negate (int_unsigned r)
  | String "+" r => int_unsigned r
  | t => int_unsigned t
  end.

Definition digit_char (d : Z) : ascii := ascii_of_nat (48 + Z.to_nat d).

(** The decimal digits of [n], least significant first, put in front of
    [acc]; [fuel] bounds the number of digits. *)
Fixpoint dec_digits (fuel : nat) (n : Z) (acc : string) : string :=
  match fuel with
  | O => acc
  | S fuel' =>
      let acc' := String (digit_char (n mod 10)) acc in
      if n / 10 =? 0 then acc' else dec_digits fuel' (n / 10) acc'
  end.

(** A number below [2 ^ fuel] has at most [fuel] decimal digits. *)
Definition digits_fuel (n : Z) : nat := S (Z.to_nat (Z.log2 n)).

(** [str(z)] for an integer: its decimal digits, after a minus sign when
    it is negative. *)
Definition str (z : Z) : string :=
  if z <? 0 then String "-" (dec_digits (digits_fuel (- z)) (- z) "")
  else dec_digits (digits_fuel z) z "".

End PyText.


(** ** The state/exception monad of the embedding

    A Python function that reads and changes the operating system state and
    may raise becomes a function from a state to a result and a new state.
    Effects performed before an exception is raised stay in the state. *)

Definition St (S A : Type) : Type := S → result A * S.

#[global] Instance St_ret {S} : MRet (St S) := λ A a s, (Ret a, s).

#[global] Instance St_bind {S} : MBind (St S) :=
  λ A B f m s,
    match m s with
    | (Ret a, s') => f a s'
    | (Raise e, s') => (Raise e, s')
    end.

Definition raise {S A} (e : exn) : St S A := λ s, (Raise e, s).

(** [try: body  except <classes caught by handles> as e: handler e] *)
Definition try_catch {S A} (body : St S A) (handles : exn → bool)
    (handler : exn → St S A) : St S A :=
  λ s,
    match body s with
    | (Ret a, s') => (Ret a, s')
    | (Raise e, s') => if handles e then handler e s' else (Raise e, s')
    end.

(** A pure computation that may raise, run inside the monad. *)
Definition lift_result {S A} (r : result A) : St S A := λ s, (r, s).

(** ** The operating system state *)

(** What a name in the PID-record directory denotes: a regular file of the
    user with its text, whose mode lets the user read and write it or not,
    or a subdirectory. The directory itself is the user's and writable. *)
Inductive node : Type :=
  | RegFile (accessible : bool) (content : string)
  | Dir.

(** The signals the source sends: the null signal of the liveness probe,
    [signal.SIGTERM] and [signal.SIGKILL]. *)
Inductive signal : Type := SIG0 | SIGTERM | SIGKILL.

(** The number of a signal. *)
Definition signo (sig : signal) : Z :=
  match sig with SIG0 => 0 | SIGTERM => 15 | SIGKILL => 9 end.

(** An entry of the kernel's process table, keyed by its PID; the calling
    process itself is not listed. [signalable]: the caller may signal it
    (otherwise [EPERM]). [exits_on_term]: it exits within the grace period
    once it has received [SIGTERM]; a process that does not is still there
    when the source probes it again. [listens_on]: the loopback port it
    holds. [pgid]: the process group it belongs to. *)
Record proc : Type := {
  signalable : bool;
  exits_on_term : bool;
  listens_on : option Z;
  pgid : Z
}.

(** What becomes of a child once started. *)
Inductive child_fate : Type :=
  | ExitsEarly (code : Z)
  | KeepsRunning (binds_port : bool) (on_term : bool).

(** What the next attempt to start a child process does: the start itself
    fails with an exception, or a child with the given PID is created. *)
Inductive spawn_outcome : Type :=
  | SpawnError (e : exn)
  | SpawnChild (pid : Z) (fate : child_fate) (stderr_text : string).

(** The command line of the child: [python -m server --directory d --port p
    --host h [--remote] --no-browser]. *)
Record command : Type := {
  cmd_directory : string;
  cmd_port : Z;
  cmd_host : string;
  cmd_remote : bool
}.

(** The messages the source prints; each constructor stands for the
    consecutive [print] calls of one report. *)
Inductive message : Type :=
  | MsgNoPorts (port : Z)
  | MsgPortInUse (port actual_port : Z)
  | MsgAlreadyRunning (actual_port existing_pid : Z)
  | MsgStartingForeground (serve_dir : string) (actual_port : Z)
  | MsgServerStopped
  | MsgErrorRunning
  | MsgStartingBackground (serve_dir : string) (actual_port : Z)
  | MsgPidSaved (pid : Z) (pid_file : string)
  | MsgFailedToStart
  | MsgCapturedStderr (text : string)
  | MsgOpeningBrowser
  | MsgRunningInBackground
  | MsgErrorStarting (e : exn)
  | MsgNoViewers
  | MsgViewersRunning (viewers : list (Z * string)) (serve_dir : string)
  | MsgNoViewersCleaned (n : nat)
  | MsgNoViewerOnPort (port : Z)
  | MsgStopped (port_num : string) (pid : Z)
  | MsgForceKilling
  | MsgNotFound (pid : Z)
  | MsgErrorKilling (pid : Z) (e : exn)
  | MsgInvalidPidFile (name : string)
  | MsgErrorProcessing (name : string) (e : exn)
  | MsgStoppedCount (n : Z).

Inductive stream : Type := Stdout | Stderr.

(** What the functions do to the terminal, the processes and the record
    files, in the order it happens. *)
Inductive event : Type :=
  | EvPrint (to : stream) (m : message)
  | EvSleep (milliseconds : Z)
  | EvSpawn (cmd : command) (pid : Z) (foreground : bool)
  | EvPoll (pid : Z) (exit_code : option Z)
  | EvSignal (pid : Z) (sig : signal)
  | EvWrite (name : string) (content : string)
  | EvUnlink (name : string)
  | EvBrowser (url_port : Z).

(** The state that the functions act on. [files]: the PID-record
    directory. [procs]: the other processes. [own_pid], [own_pgid]: the PID
    and the process group of the calling interpreter, which has the default
    disposition of [SIGTERM]. [ports_taken]: loopback ports held by
    programs outside the table. [spawns]: what the next attempts to start a
    child do. [browser_opener]: the platform's opener program exists.
    [cwd]: the working directory. [realpath]: what the file system
    resolves a path to (symbolic links, [.] and [..] followed). [trace]:
    the effects so far. *)
Record world : Type := {
  files : gmap string node;
  procs : gmap Z proc;
  own_pid : Z;
  own_pgid : Z;
  ports_taken : gset Z;
  spawns : list spawn_outcome;
  browser_opener : bool;
  cwd : string;
  realpath : string → string;
  trace : list event
}.

Abbreviation M := (St world).

Definition set_files (f : gmap string node) (w : world) : world :=
  {| files := f; procs := procs w;
     own_pid := own_pid w; own_pgid := own_pgid w;
     ports_taken := ports_taken w; spawns := spawns w;
     browser_opener := browser_opener w; cwd := cwd w;
     realpath := realpath w; trace := trace w |}.

Definition set_procs (p : gmap Z proc) (w : world) : world :=
  {| files := files w; procs := p;
     own_pid := own_pid w; own_pgid := own_pgid w;
     ports_taken := ports_taken w; spawns := spawns w;
     browser_opener := browser_opener w; cwd := cwd w;
     realpath := realpath w; trace := trace w |}.

Definition set_ports_taken (t : gset Z) (w : world) : world :=
  {| files := files w; procs := procs w;
     own_pid := own_pid w; own_pgid := own_pgid w;
     ports_taken := t; spawns := spawns w;
     browser_opener := browser_opener w; cwd := cwd w;
     realpath := realpath w; trace := trace w |}.

Definition set_spawns (l : list spawn_outcome) (w : world) : world :=
  {| files := files w; procs := procs w;
     own_pid := own_pid w; own_pgid := own_pgid w;
     ports_taken := ports_taken w; spawns := l;
     browser_opener := browser_opener w; cwd := cwd w;
     realpath := realpath w; trace := trace w |}.

Definition log (e : event) (w : world) : world :=
  {| files := files w; procs := procs w;
     own_pid := own_pid w; own_pgid := own_pgid w;
     ports_taken := ports_taken w; spawns := spawns w;
     browser_opener := browser_opener w; cwd := cwd w;
     realpath := realpath w; trace := trace w ++ [e] |}.

Definition emit (e : event) : M unit := λ w, (Ret tt, log e w).

Definition print (m : message) : M unit := emit (EvPrint Stdout m).
Definition print_err (m : message) : M unit := emit (EvPrint Stderr m).

(** [time.sleep] *)
Definition sleep (milliseconds : Z) : M unit := emit (EvSleep milliseconds).

(** ** pathlib on the PID-record directory

    [files w] is the content of the directory that [get_pid_directory]
    resolves to; names are file names inside it. *)

(** [pid_file.exists()] *)
Definition path_exists (name : string) : M bool :=
  λ w, (Ret (bool_decide (is_Some (files w !! name))), w).

(** [pid_file.read_text()]: a missing file, a directory and a file the user
    may not read raise [OSError]. *)
Definition read_text (name : string) : M string :=
  λ w,
    match files w !! name with
    | None => (Raise (OSError ENOENT), w)
    | Some Dir => (Raise (OSError EISDIR), w)
    | Some (RegFile false _) => (Raise (OSError EACCES), w)
    | Some (RegFile true content) => (Ret content, w)
    end.

(** [pid_file.write_text(content)]: creates the file or replaces its text. *)
Definition write_text (name content : string) : M unit :=
  λ w,
    match files w !! name with
    | Some Dir => (Raise (OSError EISDIR), w)
    | Some (RegFile false _) => (Raise (OSError EACCES), w)
    | _ =>
        (Ret tt,
         log (EvWrite name content)
           (set_files (<[name := RegFile true content]> (files w)) w))
    end.

(** [pid_file.unlink()]: without [missing_ok], a missing file raises
    [FileNotFoundError]; a directory cannot be unlinked. *)
Definition unlink (name : string) : M unit :=
  λ w,
    match files w !! name with
    | None => (Raise (OSError ENOENT), w)
    | Some Dir => (Raise (OSError EISDIR), w)
    | Some (RegFile _ _) =>
        (Ret tt, log (EvUnlink name) (set_files (delete name (files w)) w))
    end.

Definition ends_with (suffix s : string) : bool :=
  (String.length suffix <=? String.length s)%nat
  && String.eqb
       (substring (String.length s - String.length suffix)
          (String.length suffix) s)
       suffix.

(** The names that the pattern [fileserver.*.pid] matches. *)
Definition matches_pid_glob (name : string) : bool :=
  String.prefix "fileserver." name
  && ends_with ".pid" name
  && (15 <=? String.length name)%nat.

(** [list(pid_dir.glob("fileserver.*.pid"))], in the order the directory is
    enumerated. *)
Definition glob_pid_files : M (list string) :=
  λ w, (Ret (filter (λ n, matches_pid_glob n = true)
               (map fst (map_to_list (files w)))), w).

(** [pid_dir / f"fileserver.{port}.pid"] *)
Definition pid_file_name (port : Z) : string :=
  "fileserver." ++ PyText.str port ++ ".pid".

Fixpoint has_dot (s : string) : bool :=
  match s with
  | EmptyString => false
  | String c r => Ascii.eqb c "." || has_dot r
  end.

(** [s.split('.')[-1]] *)
Fixpoint last_field (s : string) : string :=
  match s with
  | EmptyString => EmptyString
  | String c r =>
      if has_dot r then last_field r
      else if Ascii.eqb c "." then r else String c r
  end.

(** [pid_file.stem] for a name whose suffix is [.pid]. *)
Definition stem (name : string) : string :=
  substring 0 (String.length name - 4) name.

(** [pid_file.stem.split('.')[-1]]: the port as text. *)
Definition port_of (name : string) : string := last_field (stem name).

(** [test_file.touch()]: creates an empty file, or sets the times of what
    is there, which the owner may always do. *)
Definition touch (name : string) : M unit :=
  λ w,
    match files w !! name with
    | None => (Ret tt, set_files (<[name := RegFile true ""]> (files w)) w)
    | Some _ => (Ret tt, w)
    end.

(** [test_file.unlink()] on the write-test file. It acts on the directory
    as [unlink] does; the file is no record and its removal is not entered
    in the trace. *)
Definition unlink_test_file (name : string) : M unit :=
  λ w,
    match files w !! name with
    | None => (Raise (OSError ENOENT), w)
    | Some Dir => (Raise (OSError EISDIR), w)
    | Some (RegFile _ _) => (Ret tt, set_files (delete name (files w)) w)
    end.

(** [get_pid_directory(serve_dir)] (lines 78-93), seen from the directory
    that the call returns, which is the one [files] describes: candidates
    that the loop skips are not part of the state. [mkdir(parents=True,
    exist_ok=True)] finds the directory or creates it empty. The write test
    touches and unlinks [.write_test]: a regular file of that name is
    thereby removed, a subdirectory of that name makes the unlink raise,
    which line 91 catches. *)
Definition get_pid_directory (serve_dir : string) : M unit :=
  try_catch
    (touch ".write_test";;
     unlink_test_file ".write_test")
    is_OSError
    (λ _, mret tt).

(** [Path(directory).resolve() if directory else Path.cwd()]; an empty
    string is falsy. *)
Definition resolve_serve_dir (directory : option string) : M string :=
  λ w,
    (Ret match directory with
         | Some (String c r as d) => realpath w d
         | _ => cwd w
         end, w).

(** ** Processes and sockets *)

Definition pid_t_min : Z := - 2 ^ 31.
Definition pid_t_max : Z := 2 ^ 31 - 1.

Definition in_pid_t (pid : Z) : bool :=
  (pid_t_min <=? pid) && (pid <=? pid_t_max).

(** Whether the target [pid] of [kill(2)] includes the calling process:
    its own PID, 0 (the process group of the caller) and minus its process
    group do; -1 (every process) spares the caller. *)
Definition targets_caller (w : world) (pid : Z) : bool :=
  if 0 <? pid then pid =? own_pid w
  else if pid =? 0 then true
  else if pid =? -1 then false
  else - pid =? own_pgid w.

(** Whether the process [p] with PID [k] belongs to the target [pid]: a
    positive [pid] is that process, 0 the process group of the caller, -1
    every process but [init], another negative value the process group
    [- pid]. *)
Definition in_target (w : world) (pid : Z) (k : Z) (p : proc) : bool :=
  if 0 <? pid then k =? pid
  else if pid =? 0 then pgid p =? own_pgid w
  else if pid =? -1 then 1 <? k
  else pgid p =? - pid.

(** Whether a process that receives [sig] leaves the table. *)
Definition ended_by (sig : signal) (p : proc) : bool :=
  match sig with
  | SIG0 => false
  | SIGTERM => exits_on_term p
  | SIGKILL => true
  end.

(** The world once [sig] has been sent to the target [pid] and has reached
    those of its processes that the caller may signal. *)
Definition signalled (pid : Z) (sig : signal) (w : world) : world :=
  log (EvSignal pid sig)
    (set_procs
       (filter (λ kp, negb (in_target w pid kp.1 kp.2 && signalable kp.2
                            && ended_by sig kp.2) = true)
          (procs w)) w).

(** [os.kill(pid, sig)] for a target wider than one other process.
    A target that includes the caller can always be signalled: the null
    signal returns, [SIGTERM] and [SIGKILL] end the interpreter. Otherwise
    a target without a process raises [OSError] with [errno] 3, and a
    process group none of whose processes the caller may signal raises
    [OSError] with [errno] 1; [kill(-1, ..)] succeeds, as on Linux, as
    soon as there is a process it addresses. *)
Definition kill_wide (pid : Z) (sig : signal) : M unit :=
  λ w,
    let members :=
      existsb (λ kp, in_target w pid kp.1 kp.2) (map_to_list (procs w)) in
    let reached :=
      existsb (λ kp, in_target w pid kp.1 kp.2 && signalable kp.2)
        (map_to_list (procs w)) in
    if targets_caller w pid then
      match sig with
      | SIG0 => (Ret tt, w)
      | _ => (Raise (SignalExit (signo sig)), signalled pid sig w)
      end
    else if negb members then (Raise (OSError ESRCH), w)
    else if negb ((pid =? -1) || reached) then (Raise (OSError EPERM), w)
    else
      match sig with
      | SIG0 => (Ret tt, w)
      | _ => (Ret tt, signalled pid sig w)
      end.

(** [os.kill(pid, sig)]. A [pid] that does not fit the C [pid_t] raises
    [OverflowError] before any system call. A positive [pid] other than the
    caller's addresses one process: when it is not in the process table the
    call raises [OSError] with [errno] 3; when the caller may not signal it,
    [OSError] with [errno] 1. A delivered [SIGKILL] removes the process; a
    delivered [SIGTERM] removes it when it exits on it. *)
Definition os_kill (pid : Z) (sig : signal) : M unit :=
  λ w,
    if negb (in_pid_t pid) then (Raise OverflowError, w)
    else if (pid <=? 0) || (pid =? own_pid w) then kill_wide pid sig w
    else
      match procs w !! pid with
      | None => (Raise (OSError ESRCH), w)
      | Some p =>
          if negb (signalable p) then (Raise (OSError EPERM), w)
          else
            match sig with
            | SIG0 => (Ret tt, w)
            | SIGTERM =>
                (Ret tt,
                 log (EvSignal pid SIGTERM)
                   (if exits_on_term p
                    then set_procs (delete pid (procs w)) w else w))
            | SIGKILL =>
                (Ret tt,
                 log (EvSignal pid SIGKILL)
                   (set_procs (delete pid (procs w)) w))
            end
      end.

(** process_manager.py, [is_process_running] *)
Definition is_process_running (pid : Z) : M bool :=
  try_catch (os_kill pid SIG0;; mret true) is_OSError (λ _, mret false).

(** A loopback port is busy when another program holds it ([ports_taken])
    or a process of the table listens on it. *)
Definition port_busy (port : Z) (w : world) : bool :=
  bool_decide (port ∈ ports_taken w)
  || existsb (λ kv, match listens_on (snd kv) with
                    | Some p => p =? port
                    | None => false
                    end) (map_to_list (procs w)).

(** [s.bind(('127.0.0.1', port))] on a fresh socket that is closed when the
    [with] block is left: a port outside 0..65535 raises [OverflowError], a
    port that is busy raises [OSError]; nothing stays bound. *)
Definition socket_bind (port : Z) : M unit :=
  λ w,
    if (port <? 0) || (65535 <? port) then (Raise OverflowError, w)
    else if port_busy port w
         then (Raise (OSError EADDRINUSE), w)
         else (Ret tt, w).

(** [range(start, stop)] *)
Definition range (start stop : Z) : list Z :=
  map (λ i, start + Z.of_nat i) (seq 0 (Z.to_nat (stop - start))).

Fixpoint find_port_loop (ports : list Z) : M (option Z) :=
  match ports with
  | [] => mret None
  | port :: rest =>
      try_catch (socket_bind port;; mret (Some port))
        is_OSError (λ _, find_port_loop rest)
  end.

(** process_manager.py, [find_available_port] *)
Definition find_available_port (start_port max_attempts : Z) : M (option Z) :=
  find_port_loop (range start_port (start_port + max_attempts)).

(** ** Child processes *)

(** The handle that [subprocess.Popen] returns. *)
Record process : Type := {
  process_pid : Z;
  process_fate : child_fate;
  process_stderr : string
}.

(** The table entry of a child started with [start_new_session=True]: it
    leads a process group of its own. *)
Definition child_proc (cmd : command) (pid : Z) (fate : child_fate) : proc :=
  match fate with
  | ExitsEarly _ =>
      {| signalable := true; exits_on_term := true; listens_on := None;
         pgid := pid |}
  | KeepsRunning binds on_term =>
      {| signalable := true; exits_on_term := on_term;
         listens_on := if binds then Some (cmd_port cmd) else None;
         pgid := pid |}
  end.

(** [subprocess.Popen(cmd, ..., start_new_session=True)]: the next spawn
    outcome of the world decides; with none left the system refuses to
    create a process. The child enters the process table. *)
Definition popen (cmd : command) : M process :=
  λ w,
    match spawns w with
    | [] => (Raise (OSError EAGAIN), w)
    | SpawnError e :: rest => (Raise e, set_spawns rest w)
    | SpawnChild pid fate err :: rest =>
        (Ret {| process_pid := pid; process_fate := fate;
                process_stderr := err |},
         log (EvSpawn cmd pid false)
           (set_procs (<[pid := child_proc cmd pid fate]> (procs w))
              (set_spawns rest w)))
    end.

(** [process.poll()] after the grace period: a child that exited early is
    reaped and its exit code returned, otherwise [None]. *)
Definition poll (p : process) : M (option Z) :=
  λ w,
    match process_fate p with
    | ExitsEarly code =>
        (Ret (Some code),
         log (EvPoll (process_pid p) (Some code))
           (set_procs (delete (process_pid p) (procs w)) w))
    | KeepsRunning _ _ => (Ret None, log (EvPoll (process_pid p) None) w)
    end.

(** [subprocess.run(cmd, env=env, check=True)]: blocks until the child is
    gone. A child that exits by itself with a non-zero code raises
    [CalledProcessError]; a child that keeps running is ended by the user's
    interrupt, which reaches the controller as [KeyboardInterrupt]. *)
Definition run_foreground (cmd : command) : M unit :=
  λ w,
    match spawns w with
    | [] => (Raise (OSError EAGAIN), w)
    | SpawnError e :: rest => (Raise e, set_spawns rest w)
    | SpawnChild pid (ExitsEarly code) _ :: rest =>
        (if code =? 0 then Ret tt else Raise CalledProcessError,
         log (EvSpawn cmd pid true) (set_spawns rest w))
    | SpawnChild pid (KeepsRunning _ _) _ :: rest =>
        (Raise KeyboardInterrupt,
         log (EvSpawn cmd pid true) (set_spawns rest w))
    end.

(** [subprocess.run(["xdg-open", url], check=False)] and its platform
    variants: raises when the opener program is missing. *)
Definition open_browser (port : Z) : M unit :=
  λ w,
    if browser_opener w then (Ret tt, log (EvBrowser port) w)
    else (Raise (OSError ENOENT), w).

(** ** process_manager.py, [launch_server] *)

(** Lines 173-187: the check of an existing record at the chosen port.
    Returns [true] when the launch is to be abandoned ([return None] inside
    the [try]). *)
Definition check_existing (pid_file : string) (actual_port : Z) : M bool :=
  ex ← path_exists pid_file;
  if ex : bool then
    try_catch
      (content ← read_text pid_file;
       existing_pid ← lift_result (PyText.int (PyText.strip content));
       running ← is_process_running existing_pid;
       if running : bool then
         print (MsgAlreadyRunning actual_port existing_pid);;
         mret true
       else
         unlink pid_file;;
         mret false)
      (λ e, is_OSError e || is_ValueError e)
      (λ _, unlink pid_file;; mret false)
  else mret false.

(** Lines 208-225: foreground mode. *)
Definition launch_foreground (cmd : command) (serve_dir : string)
    (actual_port : Z) : M (option (Z * option Z)) :=
  print (MsgStartingForeground serve_dir actual_port);;
  try_catch
    (run_foreground cmd;;
     mret (Some (actual_port, None)))
    (λ e, match e with
          | KeyboardInterrupt | CalledProcessError => true
          | _ => false
          end)
    (λ e, match e with
          | KeyboardInterrupt =>
              print MsgServerStopped;;
              mret (Some (actual_port, None))
          | _ =>
              print_err MsgErrorRunning;;
              mret None
          end).

(** Lines 226-303: background mode. *)
Definition launch_background (cmd : command) (serve_dir pid_file : string)
    (actual_port : Z) (no_browser : bool) : M (option (Z * option Z)) :=
  print (MsgStartingBackground serve_dir actual_port);;
  try_catch
    (process ← popen cmd;
     write_text pid_file (PyText.str (process_pid process));;
     print (MsgPidSaved (process_pid process) pid_file);;
     sleep 2000;;
     status ← poll process;
     match status with
     | Some _ =>
         print_err MsgFailedToStart;;
         (if String.eqb (process_stderr process) "" then mret tt
          else print_err (MsgCapturedStderr (process_stderr process)));;
         unlink pid_file;;
         mret None
     | None =>
         (if negb no_browser then
            print MsgOpeningBrowser;;
            open_browser actual_port
          else mret tt);;
         print MsgRunningInBackground;;
         mret (Some (actual_port, Some (process_pid process)))
     end)
    is_Exception
    (λ e,
       print_err (MsgErrorStarting e);;
       ex ← path_exists pid_file;
       (if ex : bool then unlink pid_file else mret tt);;
       mret None).

Definition launch_server (directory : option string) (port : Z)
    (host : string) (foreground remote no_browser : bool)
    : M (option (Z * option Z)) :=
  serve_dir ← resolve_serve_dir directory;
  found ← find_available_port port 100;
  match found with
  | None =>
      print_err (MsgNoPorts port);;
      mret None
  | Some actual_port =>
      (if negb (actual_port =? port)
       then print (MsgPortInUse port actual_port) else mret tt);;
      get_pid_directory serve_dir;;
      let pid_file := pid_file_name actual_port in
      abandon ← check_existing pid_file actual_port;
      if abandon : bool then mret None
      else
        let cmd := {| cmd_directory := serve_dir; cmd_port := actual_port;
                      cmd_host := host; cmd_remote := remote |} in
        if foreground
        then launch_foreground cmd serve_dir actual_port
        else launch_background cmd serve_dir pid_file actual_port no_browser
  end.

(** ** process_manager.py, [status_server] *)

(** Lines 332-345: the classification loop; [running_viewers] and
    [stale_files] are the two lists it appends to. *)
Fixpoint status_loop (pid_files : list string)
    (running_viewers : list (Z * string)) (stale_files : list string)
    : M (list (Z * string) * list string) :=
  match pid_files with
  | [] => mret (running_viewers, stale_files)
  | pid_file :: rest =>
      lists ← try_catch
        (content ← read_text pid_file;
         pid ← lift_result (PyText.int (PyText.strip content));
         let port := port_of pid_file in
         running ← is_process_running pid;
         if running : bool
         then mret ((running_viewers ++ [(pid, port)])%list, stale_files)
         else mret (running_viewers, (stale_files ++ [pid_file])%list))
        is_ValueError
        (λ _, mret (running_viewers, (stale_files ++ [pid_file])%list));
      status_loop rest (fst lists) (snd lists)
  end.

(** Lines 348-349. *)
Fixpoint unlink_all (stale_files : list string) : M unit :=
  match stale_files with
  | [] => mret tt
  | stale_file :: rest => unlink stale_file;; unlink_all rest
  end.

Definition status_server (directory : option string) : M (list (Z * string)) :=
  serve_dir ← resolve_serve_dir directory;
  get_pid_directory serve_dir;;
  pid_files ← glob_pid_files;
  match pid_files with
  | [] =>
      print MsgNoViewers;;
      mret []
  | _ =>
      lists ← status_loop pid_files [] [];
      let running_viewers := fst lists in
      let stale_files := snd lists in
      unlink_all stale_files;;
      match running_viewers with
      | _ :: _ =>
          print (MsgViewersRunning running_viewers serve_dir);;
          mret running_viewers
      | [] =>
          match stale_files with
          | _ :: _ => print (MsgNoViewersCleaned (length stale_files))
          | [] => print MsgNoViewers
          end;;
          mret []
      end
  end.

(** ** process_manager.py, [kill_server] *)

(** The two counters of [kill_server] are local variables assigned inside
    [try] blocks: an assignment made before an exception is raised is kept.
    The loop therefore runs over the counters together with the world. *)
Record counters : Type := {
  killed_count : Z;
  failed_count : Z
}.

Abbreviation K := (St (counters * world)).

Definition in_world {A} (m : M A) : K A :=
  λ cw, let '(r, w') := m (snd cw) in (r, (fst cw, w')).

Definition incr_killed : K unit :=
  λ cw, (Ret tt, ({| killed_count := killed_count (fst cw) + 1;
                     failed_count := failed_count (fst cw) |}, snd cw)).

Definition incr_failed : K unit :=
  λ cw, (Ret tt, ({| killed_count := killed_count (fst cw);
                     failed_count := failed_count (fst cw) + 1 |}, snd cw)).

(** How an iteration of the [for] loop ends: it goes on to the next target
    or leaves the function with [return v]. *)
Inductive loop_ctl : Type :=
  | Continue
  | Return (v : Z).

(** [if port:] tests the argument for truthiness: [None] and [0] are
    falsy. *)
Definition truthy (port : option Z) : bool :=
  match port with
  | Some p => negb (p =? 0)
  | None => false
  end.

Definition port_value (port : option Z) : Z :=
  match port with Some p => p | None => 0 end.

(** Lines 416-437: signalling one PID. *)
Definition signal_pid (pid : Z) (port_num : string) : K unit :=
  try_catch
    (in_world (os_kill pid SIGTERM);;
     in_world (print (MsgStopped port_num pid));;
     in_world (sleep 1000);;
     running ← in_world (is_process_running pid);
     (if running : bool then
        in_world (print MsgForceKilling);;
        in_world (os_kill pid SIGKILL);;
        in_world (sleep 500)
      else mret tt);;
     incr_killed)
    is_OSError
    (λ e,
       match e with
       | OSError 3 => in_world (print (MsgNotFound pid))
       | _ =>
           in_world (print_err (MsgErrorKilling pid e));;
           incr_failed
       end).

(** Lines 405-448: the body of the loop for one target. *)
Definition kill_body (port : option Z) (pid_file : string) : K loop_ctl :=
  ex ← in_world (path_exists pid_file);
  if negb ex then
    if truthy port then
      in_world (print (MsgNoViewerOnPort (port_value port)));;
      mret (Return 0)
    else mret Continue
  else
    try_catch
      (content ← in_world (read_text pid_file);
       pid ← lift_result (PyText.int (PyText.strip content));
       let port_num := port_of pid_file in
       signal_pid pid port_num;;
       in_world (unlink pid_file);;
       mret Continue)
      is_Exception
      (λ e,
         match e with
         | ValueError =>
             in_world (print_err (MsgInvalidPidFile pid_file));;
             in_world (unlink pid_file);;
             incr_failed;;
             mret Continue
         | _ =>
             in_world (print_err (MsgErrorProcessing pid_file e));;
             incr_failed;;
             mret Continue
         end).

Fixpoint kill_loop (port : option Z) (pid_files : list string) : K loop_ctl :=
  match pid_files with
  | [] => mret Continue
  | pid_file :: rest =>
      ctl ← kill_body port pid_file;
      match ctl with
      | Continue => kill_loop port rest
      | Return v => mret (Return v)
      end
  end.

(** Runs a computation over the counters from [killed_count = 0] and
    [failed_count = 0] and hands back the counters it ends with. *)
Definition with_counters {A} (m : K A) : M (A * counters) :=
  λ w,
    match m ({| killed_count := 0; failed_count := 0 |}, w) with
    | (Ret a, (c, w')) => (Ret (a, c), w')
    | (Raise e, (_, w')) => (Raise e, w')
    end.

(** Lines 394-454: what is done with the targets once they are chosen. *)
Definition kill_targets (port : option Z) (pid_files : list string) : M Z :=
  match pid_files with
  | [] =>
      (if truthy port then print (MsgNoViewerOnPort (port_value port))
       else print MsgNoViewers);;
      mret 0
  | _ =>
      ended ← with_counters (kill_loop port pid_files);
      match fst ended with
      | Return v => mret v
      | Continue =>
          let killed := killed_count (snd ended) in
          (if 0 <? killed then print (MsgStoppedCount killed) else mret tt);;
          mret killed
      end
  end.

Definition kill_server (directory : option string) (port : option Z)
    (kill_all : bool) : M Z :=
  serve_dir ← resolve_serve_dir directory;
  get_pid_directory serve_dir;;
  pid_files ← (if truthy port then mret [pid_file_name (port_value port)]
               else if kill_all then glob_pid_files
               else glob_pid_files);
  kill_targets port pid_files.

(** ** cli.py, [main]: the exit status

    Argument parsing is left out; a command is what [parse_args] delivers.
    An exception that escapes [main] ends the interpreter with status 1; an
    interpreter ended by a signal has the status that a shell reports for
    it, 128 plus the number of the signal. *)
Inductive cli_command : Type :=
  | CliLaunch (directory : option string) (port : Z) (host : string)
      (foreground remote no_browser : bool)
  | CliStatus (directory : option string)
  | CliKill (directory : option string) (port : option Z) (all : bool).

Definition exit_status {A} (on_return : A → Z) (run : result A * world)
    : Z * world :=
  match run with
  | (Ret a, w) => (on_return a, w)
  | (Raise (SignalExit n), w) => (128 + n, w)
  | (Raise _, w) => (1, w)
  end.

Definition main (c : cli_command) (w : world) : Z * world :=
  match c with
  | CliLaunch directory port host foreground remote no_browser =>
      exit_status (λ r, match r with None => 1 | Some _ => 0 end)
        (launch_server directory port host foreground remote no_browser w)
  | CliStatus directory =>
      exit_status (λ _, 0) (status_server directory w)
  | CliKill directory port all =>
      exit_status (λ killed, if 0 <? killed then 0 else 1)
        (kill_server directory port all w)
  end.

(** ** Vocabulary of the statements *)

(** The port [socket_bind] accepts: inside 0..65535 and not busy. *)
Definition bind_ok (w : world) (port : Z) : bool :=
  negb ((port <? 0) || (65535 <? port)) && negb (port_busy port w).

(** The world that [get_pid_directory] leaves: a regular file
    [.write_test] is gone, nothing else has changed. *)
Definition write_tested (w : world) : world :=
  match files w !! ".write_test" with
  | Some (RegFile _ _) => set_files (delete ".write_test" (files w)) w
  | _ => w
  end.

(** The world after a successful [unlink]. *)
Definition unlinked (name : string) (w : world) : world :=
  log (EvUnlink name) (set_files (delete name (files w)) w).

Definition add_failed (c : counters) : counters :=
  {| killed_count := killed_count c; failed_count := failed_count c + 1 |}.

Definition add_killed (c : counters) : counters :=
  {| killed_count := killed_count c + 1; failed_count := failed_count c |}.

(** What the loop body of [kill_server] makes of a target that exists, by
    cases on what the file is, what its text parses to and what the kernel
    answers to the termination signal. *)
Definition kill_outcome (pid_file : string) (nd : node) (c : counters)
    (w : world) : counters * world :=
  let failed e :=
    (add_failed c, log (EvPrint Stderr (MsgErrorProcessing pid_file e)) w) in
  match nd with
  | Dir => failed (OSError EISDIR)
  | RegFile false _ => failed (OSError EACCES)
  | RegFile true content =>
      match PyText.int (PyText.strip content) with
      | Raise _ =>
          (add_failed c,
           unlinked pid_file
             (log (EvPrint Stderr (MsgInvalidPidFile pid_file)) w))
      | Ret pid =>
          if negb (in_pid_t pid) then failed OverflowError
          else
            match procs w !! pid with
            | None =>
                (c, unlinked pid_file
                      (log (EvPrint Stdout (MsgNotFound pid)) w))
            | Some p =>
                if negb (signalable p) then
                  (add_failed c,
                   unlinked pid_file
                     (log (EvPrint Stderr
                             (MsgErrorKilling pid (OSError EPERM))) w))
                else if exits_on_term p then
                  (add_killed c,
                   unlinked pid_file
                     (log (EvSleep 1000)
                        (log (EvPrint Stdout (MsgStopped (port_of pid_file) pid))
                           (log (EvSignal pid SIGTERM)
                              (set_procs (delete pid (procs w)) w)))))
                else
                  (add_killed c,
                   unlinked pid_file
                     (log (EvSleep 500)
                        (log (EvSignal pid SIGKILL)
                           (set_procs (delete pid (procs w))
                              (log (EvPrint Stdout MsgForceKilling)
                                 (log (EvSleep 1000)
                                    (log (EvPrint Stdout
                                            (MsgStopped (port_of pid_file) pid))
                                       (log (EvSignal pid SIGTERM) w))))))))
            end
      end
  end.

(** The number of termination signals delivered in a stretch of the trace. *)
Fixpoint sigterms (evs : list event) : Z :=
  match evs with
  | [] => 0
  | EvSignal _ SIGTERM :: rest => 1 + sigterms rest
  | _ :: rest => sigterms rest
  end.

(** How the counters and the world move while [kill_server] works through
    its targets: the trace grows by [evs], [killed_count] grows by the
    number of delivered termination signals, [failed_count] never shrinks,
    files and processes are only ever removed, only signalable processes
    are removed, and signals reach only processes of the table. *)
Record kill_progress (c : counters) (w : world) (c' : counters) (w' : world)
    (evs : list event) : Prop := {
  kp_trace : trace w' = (trace w ++ evs)%list;
  kp_killed : killed_count c' = killed_count c + sigterms evs;
  kp_failed : failed_count c <= failed_count c';
  kp_files : ∀ g, files w' !! g = None ∨ files w' !! g = files w !! g;
  kp_procs : ∀ pid,
    procs w' !! pid = procs w !! pid
    ∨ (procs w' !! pid = None
       ∧ ∃ p, procs w !! pid = Some p ∧ signalable p = true);
  kp_signals : ∀ pid s,
    EvSignal pid s ∈ evs → ∃ p, procs w !! pid = Some p ∧ signalable p = true
}.

(** ** Example worlds *)

(** A path made absolute in the directory [dir]; what [realpath] is in a
    tree without symbolic links for a path without [.] and [..]. *)
Definition absolute_in (dir path : string) : string :=
  match path with
  | String "/" _ => path
  | _ => dir ++ "/" ++ path
  end.

(** Nothing recorded, nothing running, no port taken; the caller is process
    4000 and leads its process group. *)
Definition quiet_world : world :=
  {| files := ∅; procs := ∅; own_pid := 4000; own_pgid := 4000;
     ports_taken := ∅; spawns := []; browser_opener := true;
     cwd := "/srv/docs"; realpath := absolute_in "/srv/docs"; trace := [] |}.

(** A record for port 4444 left behind by process 777, which is gone. *)
Definition stale_record_world : world :=
  set_files {[ "fileserver.4444.pid" := RegFile true "777" ]} quiet_world.

(** A record that the user may not read. *)
Definition unreadable_record_world : world :=
  set_files {[ "fileserver.4444.pid" := RegFile false "4242" ]} quiet_world.

(** The record files that [kill_server] targets (lines 383-392). *)
Definition kill_target_names (port : option Z) (w : world) : list string :=
  if truthy port then [pid_file_name (port_value port)]
  else filter (λ n, matches_pid_glob n = true)
         (map fst (map_to_list (files w))).

(** The text of a record is plain: it is ASCII text and, when it parses,
    it names one process other than the caller, by a positive PID that is
    not the caller's own. The records that a launch writes are plain. *)
Definition plain_record (w : world) (content : string) : bool :=
  PyText.ascii_text content
  && match PyText.int (PyText.strip content) with
     | Ret pid => (0 <? pid) && negb (pid =? own_pid w)
     | Raise _ => true
     end.

(** The files of a list that can be read are plain records. *)
Definition plain_targets (w : world) (names : list string) : bool :=
  forallb (λ g, match files w !! g with
                | Some (RegFile true content) => plain_record w content
                | _ => true
                end) names.

(** The text of a record is one that [kill_server] can act on: when it
    parses to a PID, the PID fits the [pid_t] argument of [os.kill]. *)
Definition signal_ready (content : string) : Prop :=
  ∀ pid, PyText.int (PyText.strip content) = Ret pid → in_pid_t pid = true.

(** A record for port 4444 naming process 777, which belongs to another
    user: the caller may not signal it. *)
Definition foreign_process_world : world :=
  set_procs {[ 777 := {| signalable := false; exits_on_term := true;
                         listens_on := None; pgid := 777 |} ]}
    stale_record_world.

(** The stale record of port 4444 beside a record for port 4445 that the
    user may not read, and a file left by an earlier write test. *)
Definition stale_and_unreadable_world : world :=
  set_files {[ "fileserver.4444.pid" := RegFile true "777";
               "fileserver.4445.pid" := RegFile false "4242";
               ".write_test" := RegFile true "" ]} quiet_world.

(** A record for port 4444 whose PID does not fit [pid_t]. *)
Definition oversized_pid_world : world :=
  set_files {[ "fileserver.4444.pid" := RegFile true "99999999999" ]}
    quiet_world.

(** A record for port 4444 that holds [0]. *)
Definition zero_pid_world : world :=
  set_files {[ "fileserver.4444.pid" := RegFile true "0" ]} quiet_world.

(** ** Integer literals, declaratively *)

Fixpoint all_digits (s : string) : bool :=
  match s with
  | EmptyString => true
  | String c r => PyText.is_digit c && all_digits r
  end.

(** The value of a string of decimal digits read after the value [acc]. *)
Fixpoint dec_value_acc (acc : Z) (s : string) : Z :=
  match s with
  | EmptyString => acc
  | String c r => dec_value_acc (10 * acc + PyText.digit_val c) r
  end.

Definition dec_value (s : string) : Z := dec_value_acc 0 s.

(** The spec's "valid non-negative (decimal) integer": the text, without
    the surrounding whitespace, is a non-empty string of decimal digits. *)
Definition nonneg_decimal (content : string) : bool :=
  let t := PyText.strip content in
  negb (String.eqb t "") && all_digits t.

(** Digit groups, each led by an underscore, and their digits in a row. *)
Fixpoint sep_groups (gs : list string) : string :=
  match gs with
  | [] => ""
  | g :: rest => String "_" (g ++ sep_groups rest)
  end.

Fixpoint flatten (gs : list string) : string :=
  match gs with
  | [] => ""
  | g :: rest => g ++ flatten rest
  end.

Definition digit_group (g : string) : Prop := g ≠ "" ∧ all_digits g = true.

(** The digit part of a literal of value [v]: non-empty groups of digits
    separated by single underscores, at most [int_max_str_digits] digits
    in all. *)
Definition literal_body (s : string) (v : Z) : Prop :=
  ∃ g gs,
    digit_group g ∧ Forall digit_group gs
    ∧ s = g ++ sep_groups gs
    ∧ (String.length (g ++ flatten gs) ≤ PyText.int_max_str_digits)%nat
    ∧ v = dec_value (g ++ flatten gs).

(** An integer literal of value [v]: an optional sign and the digits. *)
Definition int_literal (s : string) (v : Z) : Prop :=
  (∃ r u, s = String "-" r ∧ literal_body r u ∧ v = - u)
  ∨ (∃ r, s = String "+" r ∧ literal_body r v)
  ∨ literal_body s v.

(** ** [status_server] and the liveness probe, in direct style *)

(** What [is_process_running] answers for a PID that [os.kill] accepts:
    whether the null signal can be sent to the target. *)
Definition running (w : world) (pid : Z) : bool :=
  if (pid <=? 0) || (pid =? own_pid w) then
    targets_caller w pid
    || existsb (λ kp, in_target w pid kp.1 kp.2) (map_to_list (procs w))
       && ((pid =? -1)
           || existsb (λ kp, in_target w pid kp.1 kp.2 && signalable kp.2)
                (map_to_list (procs w)))
  else
    match procs w !! pid with
    | Some p => signalable p
    | None => false
    end.

(** One iteration of the loop of [status_server] (lines 333-345): the entry
    of a live record, [None] for a stale one, or the exception that leaves
    the loop. *)
Definition status_step (w : world) (pid_file : string)
    : result (option (Z * string)) :=
  match files w !! pid_file with
  | None => Raise (OSError ENOENT)
  | Some Dir => Raise (OSError EISDIR)
  | Some (RegFile false _) => Raise (OSError EACCES)
  | Some (RegFile true content) =>
      match PyText.int (PyText.strip content) with
      | Raise _ => Ret None
      | Ret pid =>
          if in_pid_t pid
          then Ret (if running w pid then Some (pid, port_of pid_file)
                    else None)
          else Raise OverflowError
      end
  end.

Fixpoint classify (w : world) (pid_files : list string)
    (running_viewers : list (Z * string)) (stale_files : list string)
    : result (list (Z * string) * list string) :=
  match pid_files with
  | [] => Ret (running_viewers, stale_files)
  | pid_file :: rest =>
      match status_step w pid_file with
      | Ret (Some entry) =>
          classify w rest (running_viewers ++ [entry])%list stale_files
      | Ret None =>
          classify w rest running_viewers (stale_files ++ [pid_file])%list
      | Raise e => Raise e
      end
  end.

(** The entry that [status_server] reports for a record file, if any. *)
Definition live_entry (w : world) (pid_file : string) : option (Z * string) :=
  match status_step w pid_file with
  | Ret (Some entry) => Some entry
  | _ => None
  end.

Definition is_stale (w : world) (pid_file : string) : bool :=
  match status_step w pid_file with
  | Ret None => true
  | _ => false
  end.

(** The world after the files of a list have been unlinked in turn. *)
Fixpoint unlinked_all (names : list string) (w : world) : world :=
  match names with
  | [] => w
  | name :: rest => unlinked_all rest (unlinked name w)
  end.

(** The record files of the directory, as [glob] lists them. *)
Definition record_files (w : world) : list string :=
  filter (λ n, matches_pid_glob n = true) (map fst (map_to_list (files w))).

(** Every record file that can be read holds ASCII text: the text that
    [read_text] decodes is then the content itself, and [str.strip] and
    [int] see no character outside ASCII. *)
Definition ascii_records (w : world) : bool :=
  forallb (λ g, match files w !! g with
                | Some (RegFile true content) => PyText.ascii_text content
                | _ => true
                end) (record_files w).

(** A record is stale: its text is malformed, or the liveness probe says
    that its PID is not running. *)
Definition record_stale (content : string) (w : world) : Prop :=
  PyText.int (PyText.strip content) = Raise ValueError
  ∨ ∃ pid, PyText.int (PyText.strip content) = Ret pid
           ∧ is_process_running pid w = (Ret false, w).

(** The record files that [status_server] classifies as stale. *)
Definition stale_files_of (w : world) : list string :=
  filter (λ g, is_stale w g = true) (record_files w).

(** ** [launch_server] in direct style *)

(** The serve directory that [launch_server] resolves. *)
Definition serve_dir_of (directory : option string) (w : world) : string :=
  match directory with
  | Some (String c r as d) => realpath w d
  | _ => cwd w
  end.

(** What the check of an existing record (lines 173-187) comes to, by
    cases on what is at the path of the record. *)
Definition check_outcome (pid_file : string) (actual_port : Z) (w : world)
    : result bool * world :=
  match files w !! pid_file with
  | None => (Ret false, w)
  | Some Dir => (Raise (OSError EISDIR), w)
  | Some (RegFile false _) => (Ret false, unlinked pid_file w)
  | Some (RegFile true content) =>
      match PyText.int (PyText.strip content) with
      | Raise _ => (Ret false, unlinked pid_file w)
      | Ret pid =>
          if in_pid_t pid then
            if running w pid
            then (Ret true,
                  log (EvPrint Stdout (MsgAlreadyRunning actual_port pid)) w)
            else (Ret false, unlinked pid_file w)
          else (Raise OverflowError, w)
      end
  end.

(** The world in which the record of [actual_port] is looked up: the
    report that another port was chosen has been printed. *)
Definition port_reported (port actual_port : Z) (w : world) : world :=
  if negb (actual_port =? port)
  then log (EvPrint Stdout (MsgPortInUse port actual_port)) w
  else w.

(** What a background launch comes to when no record is at [pid_file]. *)
Definition background_outcome (cmd : command) (serve_dir pid_file : string)
    (actual_port : Z) (no_browser : bool) (w : world)
    : result (option (Z * option Z)) * world :=
  let w0 := log (EvPrint Stdout (MsgStartingBackground serve_dir actual_port)) w in
  let failed e w1 :=
    (Ret None, log (EvPrint Stderr (MsgErrorStarting e)) w1) in
  match spawns w with
  | [] => failed (OSError EAGAIN) w0
  | SpawnError e :: rest =>
      if is_Exception e then failed e (set_spawns rest w0)
      else (Raise e, set_spawns rest w0)
  | SpawnChild pid fate err :: rest =>
      let w1 :=
        log (EvSleep 2000)
          (log (EvPrint Stdout (MsgPidSaved pid pid_file))
             (log (EvWrite pid_file (PyText.str pid))
                (set_files
                   (<[pid_file := RegFile true (PyText.str pid)]> (files w))
                   (log (EvSpawn cmd pid false)
                      (set_procs (<[pid := child_proc cmd pid fate]> (procs w))
                         (set_spawns rest w0)))))) in
      match fate with
      | ExitsEarly code =>
          let w2 :=
            log (EvPrint Stderr MsgFailedToStart)
              (log (EvPoll pid (Some code))
                 (set_procs (delete pid (procs w1)) w1)) in
          let w3 :=
            if String.eqb err "" then w2
            else log (EvPrint Stderr (MsgCapturedStderr err)) w2 in
          (Ret None, unlinked pid_file w3)
      | KeepsRunning _ _ =>
          let w2 := log (EvPoll pid None) w1 in
          if no_browser then
            (Ret (Some (actual_port, Some pid)),
             log (EvPrint Stdout MsgRunningInBackground) w2)
          else
            let w3 := log (EvPrint Stdout MsgOpeningBrowser) w2 in
            if browser_opener w then
              (Ret (Some (actual_port, Some pid)),
               log (EvPrint Stdout MsgRunningInBackground)
                 (log (EvBrowser actual_port) w3))
            else
              (Ret None,
               unlinked pid_file
                 (log (EvPrint Stderr (MsgErrorStarting (OSError ENOENT)))
                    w3))
      end
  end.

(** The command line that [launch_server] builds. *)
Definition launch_cmd (directory : option string) (host : string)
    (remote : bool) (actual_port : Z) (w : world) : command :=
  {| cmd_directory := serve_dir_of directory w; cmd_port := actual_port;
     cmd_host := host; cmd_remote := remote |}.

(** Two records: port 4444 names process 500, which runs; port 4445 names
    process 777, which does not. *)
Definition mixed_records_world : world :=
  {| files := {[ "fileserver.4444.pid" := RegFile true "500";
                 "fileserver.4445.pid" := RegFile true "777" ]};
     procs := {[ 500 := {| signalable := true; exits_on_term := false;
                           listens_on := None; pgid := 500 |} ]};
     own_pid := 4000; own_pgid := 4000;
     ports_taken := ∅; spawns := []; browser_opener := true;
     cwd := "/srv/docs"; realpath := absolute_in "/srv/docs"; trace := [] |}.

(** A live record for port 4444 (process 500 runs but does not hold the
    loopback port), and a child ready to be spawned. *)
Definition live_record_world : world :=
  {| files := {[ "fileserver.4444.pid" := RegFile true "500" ]};
     procs := {[ 500 := {| signalable := true; exits_on_term := true;
                           listens_on := None; pgid := 500 |} ]};
     own_pid := 4000; own_pgid := 4000;
     ports_taken := ∅;
     spawns := [SpawnChild 600 (KeepsRunning true true) ""];
     browser_opener := true; cwd := "/srv/docs";
     realpath := absolute_in "/srv/docs"; trace := [] |}.

(** No record; the next child exits at once with a message on stderr. *)
Definition early_exit_world : world :=
  set_spawns [SpawnChild 600 (ExitsEarly 1) "address already in use"]
    quiet_world.

(** No record; the next child starts, binds its port and keeps running. *)
Definition fresh_launch_world : world :=
  set_spawns [SpawnChild 600 (KeepsRunning true true) ""] quiet_world.

(** * Properties *)

(** ** The monad *)

Lemma bind_eq {S A B} (m : St S A) (f : A → St S B) (s : S) :
  (m ≫= f) s =
  match m s with
  | (Ret a, s') => f a s'
  | (Raise e, s') => (Raise e, s')
  end.
Proof. reflexivity. Qed.

Lemma bind_ret_eq {S A B} (m : St S A) (f : A → St S B) s a s' :
  m s = (Ret a, s') → (m ≫= f) s = f a s'.
Proof. intros H. rewrite bind_eq, H. reflexivity. Qed.

Lemma bind_raise_eq {S A B} (m : St S A) (f : A → St S B) s e s' :
  m s = (Raise e, s') → (m ≫= f) s = (Raise e, s').
Proof. intros H. rewrite bind_eq, H. reflexivity. Qed.

Lemma try_catch_eq {S A} (body : St S A) h k (s : S) :
  try_catch body h k s =
  match body s with
  | (Ret a, s') => (Ret a, s')
  | (Raise e, s') => if h e then k e s' else (Raise e, s')
  end.
Proof. reflexivity. Qed.

(** Unfolds the monadic glue, leaving the primitives. *)
Ltac monad_unfold :=
  unfold mbind, mret, St_bind, St_ret, try_catch, lift_result, raise in *.

(** ** Python text *)

Example int_plain : PyText.int "4242" = Ret 4242.
Proof. reflexivity. Qed.

Example int_newline :
  PyText.int (" 4242" ++ String (ascii_of_nat 10) "") = Ret 4242.
Proof. reflexivity. Qed.

Example int_negative : PyText.int "-5" = Ret (-5).
Proof. reflexivity. Qed.

Example int_underscore : PyText.int "1_000" = Ret 1000.
Proof. reflexivity. Qed.

Example int_bad_underscore : PyText.int "1__0" = Raise ValueError.
Proof. reflexivity. Qed.

Example int_empty : PyText.int "" = Raise ValueError.
Proof. reflexivity. Qed.

Example int_inner_space : PyText.int "- 5" = Raise ValueError.
Proof. reflexivity. Qed.

Example str_pid : PyText.str 31337 = "31337".
Proof. reflexivity. Qed.

Example str_zero : PyText.str 0 = "0".
Proof. reflexivity. Qed.

Example str_negative : PyText.str (-120) = "-120".
Proof. reflexivity. Qed.

Example str_pid_max : PyText.str 2147483647 = "2147483647".
Proof. reflexivity. Qed.

(** ** [find_available_port] *)

Lemma socket_bind_world port w r w' : socket_bind port w = (r, w') → w' = w.
Proof.
  unfold socket_bind. repeat case_match; congruence.
Qed.

Lemma find_port_loop_world ports w r w' :
  find_port_loop ports w = (r, w') → w' = w.
Proof.
  revert w r w'. induction ports as [|p ports IH]; intros w r w' H.
  - inversion H; reflexivity.
  - simpl in H. rewrite try_catch_eq, bind_eq in H.
    destruct (socket_bind p w) as [[[]|e] w1] eqn:Hb;
      apply socket_bind_world in Hb; subst w1.
    + inversion H; reflexivity.
    + destruct (is_OSError e); [eauto | congruence].
Qed.

Lemma find_available_port_world start n w r w' :
  find_available_port start n w = (r, w') → w' = w.
Proof. apply find_port_loop_world. Qed.

Lemma range_cons start stop :
  start < stop → range start stop = start :: range (start + 1) stop.
Proof.
  intros H. unfold range.
  replace (Z.to_nat (stop - start)) with (S (Z.to_nat (stop - (start + 1))))
    by lia.
  simpl. f_equal; [lia|].
  rewrite <- seq_shift, map_map. apply map_ext. intros i. lia.
Qed.

Lemma range_nil start stop : stop <= start → range start stop = [].
Proof.
  intros H. unfold range. replace (Z.to_nat (stop - start)) with 0%nat by lia.
  reflexivity.
Qed.

Lemma elem_of_range start stop p : p ∈ range start stop ↔ start <= p < stop.
Proof.
  unfold range. rewrite list_elem_of_In, in_map_iff. split.
  - intros (i & <- & Hi). apply in_seq in Hi. lia.
  - intros H. exists (Z.to_nat (p - start)). split; [lia|].
    apply in_seq. lia.
Qed.

Lemma socket_bind_ok w port :
  bind_ok w port = true → socket_bind port w = (Ret tt, w).
Proof.
  unfold bind_ok, socket_bind. intros H.
  apply andb_true_iff in H as [H1 H2].
  apply negb_true_iff in H1, H2. rewrite H1, H2. reflexivity.
Qed.

Lemma socket_bind_busy w port :
  0 <= port <= 65535 → port_busy port w = true →
  socket_bind port w = (Raise (OSError EADDRINUSE), w).
Proof.
  unfold socket_bind. intros Hr Hb.
  replace ((port <? 0) || (65535 <? port)) with false by lia.
  rewrite Hb. reflexivity.
Qed.

(** Within the valid ports the search behaves as documented: the ports
    below the result are busy, the result is the first free one; without a
    free port in the range the result is [None]. *)
Lemma find_port_loop_first_free ports1 p ports2 w :
  (∀ q, q ∈ ports1 → 0 <= q <= 65535 ∧ port_busy q w = true) →
  bind_ok w p = true →
  find_port_loop (ports1 ++ p :: ports2)%list w = (Ret (Some p), w).
Proof.
  intros Hbusy Hp. induction ports1 as [|q ports1 IH]; simpl.
  - rewrite try_catch_eq, bind_eq, (socket_bind_ok _ _ Hp). reflexivity.
  - destruct (Hbusy q) as [Hr Hq]; [left|].
    rewrite try_catch_eq, bind_eq, (socket_bind_busy _ _ Hr Hq). simpl.
    apply IH. intros q' Hq'. apply Hbusy. by right.
Qed.

Lemma find_port_loop_none ports w :
  (∀ q, q ∈ ports → 0 <= q <= 65535 ∧ port_busy q w = true) →
  find_port_loop ports w = (Ret None, w).
Proof.
  intros Hbusy. induction ports as [|q ports IH]; simpl; [reflexivity|].
  destruct (Hbusy q) as [Hr Hq]; [left|].
  rewrite try_catch_eq, bind_eq, (socket_bind_busy _ _ Hr Hq). simpl.
  apply IH. intros q' Hq'. apply Hbusy. by right.
Qed.

Lemma find_available_port_start_free start n w :
  0 < n → bind_ok w start = true →
  find_available_port start n w = (Ret (Some start), w).
Proof.
  intros Hn Hs. unfold find_available_port.
  rewrite range_cons by lia.
  apply (find_port_loop_first_free [] start). 2: done.
  intros q Hq. inversion Hq.
Qed.

Lemma port_busy_taken port w :
  port ∈ ports_taken w → port_busy port w = true.
Proof.
  intros H. unfold port_busy. rewrite bool_decide_eq_true_2 by done.
  reflexivity.
Qed.

(** C8. The documented result of [find_available_port] is a port or
    [None]; with port 65535 busy, the search from 65535 goes on to 65536,
    where [bind] raises [OverflowError], which [except OSError] does not
    catch: the search raises instead of returning [None], and the launch
    ends with a traceback and status 1 without its report. *)
Theorem find_available_port_past_65535 (w : world) :
  let w' := set_ports_taken ({[65535]} ∪ ports_taken w) w in
  find_available_port 65535 100 w' = (Raise OverflowError, w')
  ∧ main (CliLaunch None 65535 "127.0.0.1" false false false) w' = (1, w').
Proof.
  intros w'.
  assert (Hf : find_available_port 65535 100 w' = (Raise OverflowError, w')).
  { unfold find_available_port.
    rewrite range_cons by lia. rewrite range_cons by lia. simpl.
    rewrite try_catch_eq, bind_eq.
    rewrite socket_bind_busy; [|lia|apply port_busy_taken; set_solver].
    simpl. rewrite try_catch_eq, bind_eq. reflexivity. }
  split; [exact Hf|].
  unfold main, launch_server. rewrite bind_eq. simpl.
  rewrite bind_eq, Hf. reflexivity.
Qed.

(** ** [get_pid_directory] *)

Lemma set_files_same w : set_files (files w) w = w.
Proof. by destruct w. Qed.

Lemma get_pid_directory_eq serve_dir w :
  get_pid_directory serve_dir w = (Ret tt, write_tested w).
Proof.
  unfold get_pid_directory, write_tested.
  rewrite try_catch_eq, bind_eq. unfold touch, unlink_test_file.
  destruct (files w !! ".write_test") as [[a content|]|] eqn:Hf.
  - rewrite Hf. reflexivity.
  - rewrite Hf. reflexivity.
  - cbn [files set_files]. rewrite lookup_insert_eq.
    rewrite delete_insert_id by exact Hf. cbn.
    f_equal. by destruct w.
Qed.

Lemma write_tested_absent w :
  files w !! ".write_test" = None → write_tested w = w.
Proof. intros H. unfold write_tested. by rewrite H. Qed.

Lemma write_tested_files w g :
  g ≠ ".write_test" → files (write_tested w) !! g = files w !! g.
Proof.
  intros Hne. unfold write_tested.
  destruct (files w !! ".write_test") as [[a content|]|]; try reflexivity.
  cbn [files set_files]. by rewrite lookup_delete_ne.
Qed.

Lemma write_tested_files_sub w g :
  files (write_tested w) !! g = None
  ∨ files (write_tested w) !! g = files w !! g.
Proof.
  destruct (decide (g = ".write_test")) as [->|Hne].
  - unfold write_tested.
    destruct (files w !! ".write_test") as [[a content|]|] eqn:Hf; auto.
    left. cbn [files set_files]. apply lookup_delete_eq.
  - right. by apply write_tested_files.
Qed.

Lemma write_tested_record w g :
  matches_pid_glob g = true → files (write_tested w) !! g = files w !! g.
Proof.
  intros Hm. apply write_tested_files. intros ->. discriminate.
Qed.

Lemma write_tested_procs w : procs (write_tested w) = procs w.
Proof. unfold write_tested. by repeat case_match. Qed.

Lemma write_tested_own_pid w : own_pid (write_tested w) = own_pid w.
Proof. unfold write_tested. by repeat case_match. Qed.

Lemma write_tested_own_pgid w : own_pgid (write_tested w) = own_pgid w.
Proof. unfold write_tested. by repeat case_match. Qed.

Lemma write_tested_trace w : trace (write_tested w) = trace w.
Proof. unfold write_tested. by repeat case_match. Qed.

Lemma write_tested_spawns w : spawns (write_tested w) = spawns w.
Proof. unfold write_tested. by repeat case_match. Qed.

Lemma write_tested_browser w :
  browser_opener (write_tested w) = browser_opener w.
Proof. unfold write_tested. by repeat case_match. Qed.

Lemma write_tested_ports w : ports_taken (write_tested w) = ports_taken w.
Proof. unfold write_tested. by repeat case_match. Qed.

Lemma write_tested_idem w : write_tested (write_tested w) = write_tested w.
Proof.
  destruct (files w !! ".write_test") as [[a content|]|] eqn:Hf.
  - apply write_tested_absent. unfold write_tested. rewrite Hf.
    cbn [files set_files]. apply lookup_delete_eq.
  - assert (E : write_tested w = w) by (unfold write_tested; by rewrite Hf).
    by rewrite !E.
  - by rewrite !(write_tested_absent w Hf).
Qed.

(** ** [kill_server]: the choice of targets *)

Lemma kill_body_falsy pid_file : kill_body (Some 0) pid_file = kill_body None pid_file.
Proof. reflexivity. Qed.

Lemma kill_loop_falsy pid_files cw :
  kill_loop (Some 0) pid_files cw = kill_loop None pid_files cw.
Proof.
  revert cw. induction pid_files as [|f l IH]; intros cw; [reflexivity|].
  simpl. rewrite !bind_eq, kill_body_falsy.
  destruct (kill_body None f cw) as [[[]|e] cw']; auto.
Qed.

Lemma kill_targets_falsy pid_files w :
  kill_targets (Some 0) pid_files w = kill_targets None pid_files w.
Proof.
  destruct pid_files as [|f l]; [reflexivity|].
  unfold kill_targets. rewrite !bind_eq. unfold with_counters.
  rewrite kill_loop_falsy. reflexivity.
Qed.

(** ** [status_server] on a record that cannot be read *)

Lemma glob_singleton name n w :
  matches_pid_glob name = true →
  glob_pid_files (set_files {[ name := n ]} w)
  = (Ret [name], set_files {[ name := n ]} w).
Proof.
  intros Hm. unfold glob_pid_files. simpl files.
  rewrite map_to_list_singleton. simpl.
  rewrite filter_cons_True by done. reflexivity.
Qed.

(** C3. [status_server] catches [ValueError] only. With a record file in
    the directory that the user may not read, [read_text] raises [OSError],
    which escapes [status_server] and [main]: the command ends with status
    1, not 0. [launch_server] catches [(OSError, ValueError)] and
    [kill_server] catches [Exception] at the same read. *)
Theorem status_server_unreadable_record (directory : option string)
    (w : world) :
  let w' := set_files {[ "fileserver.4444.pid" := RegFile false "4242" ]} w in
  status_server directory w' = (Raise (OSError EACCES), w')
  ∧ main (CliStatus directory) w' = (1, w').
Proof.
  intros w'.
  assert (Hs : status_server directory w' = (Raise (OSError EACCES), w')).
  { unfold status_server. rewrite bind_eq. simpl.
    rewrite bind_eq, get_pid_directory_eq.
    rewrite write_tested_absent by reflexivity.
    cbv beta iota. rewrite bind_eq.
    unfold w'. rewrite glob_singleton by reflexivity.
    rewrite bind_eq. simpl status_loop.
    rewrite bind_eq, try_catch_eq, bind_eq.
    unfold read_text. simpl files. rewrite lookup_singleton_eq.
    reflexivity. }
  split; [exact Hs|]. unfold main. rewrite Hs. reflexivity.
Qed.

(** ** [kill_server]: one target *)

Lemma int_unsigned_raise s e : PyText.int_unsigned s = Raise e → e = ValueError.
Proof.
  unfold PyText.int_unsigned. repeat case_match; congruence.
Qed.

Lemma int_raise s e : PyText.int s = Raise e → e = ValueError.
Proof.
  unfold PyText.int, PyText.negate.
  repeat case_match; subst; try congruence;
    eauto using int_unsigned_raise;
    intros [= <-]; eauto using int_unsigned_raise.
Qed.

Lemma kill_body_absent port pid_file c w :
  files w !! pid_file = None →
  kill_body port pid_file (c, w)
  = if truthy port
    then (Ret (Return 0),
          (c, log (EvPrint Stdout (MsgNoViewerOnPort (port_value port))) w))
    else (Ret Continue, (c, w)).
Proof.
  intros Hf. unfold kill_body. rewrite bind_eq.
  unfold in_world at 1, path_exists. simpl. rewrite Hf.
  rewrite bool_decide_eq_false_2 by (intros [? ?]; congruence). simpl.
  destruct (truthy port); reflexivity.
Qed.

(** Unfolds the primitives down to lookups in the world. *)
Ltac prims_unfold :=
  unfold in_world, path_exists, read_text, write_text, unlink, print,
    print_err, sleep, emit, is_process_running, os_kill, incr_killed,
    incr_failed, poll, popen, open_browser, run_foreground,
    resolve_serve_dir, get_pid_directory in *;
  monad_unfold.

(** A plain record names one process other than the caller. *)
Lemma plain_record_pid w content pid :
  plain_record w content = true →
  PyText.int (PyText.strip content) = Ret pid →
  (pid <=? 0) || (pid =? own_pid w) = false.
Proof.
  unfold plain_record. intros [_ H]%andb_true_iff Hint.
  rewrite Hint in H. apply andb_true_iff in H as [H1 H2].
  apply Z.ltb_lt in H1. apply negb_true_iff in H2.
  rewrite H2, orb_false_r. apply Z.leb_gt. exact H1.
Qed.

Lemma plain_targets_lookup w names g content :
  plain_targets w names = true → g ∈ names →
  files w !! g = Some (RegFile true content) →
  plain_record w content = true.
Proof.
  unfold plain_targets. rewrite forallb_forall.
  intros H Hin Hf. apply list_elem_of_In in Hin.
  specialize (H g Hin). by rewrite Hf in H.
Qed.

Lemma plain_targets_cons w g names :
  plain_targets w (g :: names) = true →
  plain_targets w [g] = true ∧ plain_targets w names = true.
Proof.
  unfold plain_targets. simpl. rewrite andb_true_r.
  by intros [? ?]%andb_true_iff.
Qed.

(** Plainness survives when files are only removed and the caller stays
    the same. *)
Lemma plain_targets_sub w w' names :
  (∀ g, files w' !! g = None ∨ files w' !! g = files w !! g) →
  own_pid w' = own_pid w →
  plain_targets w names = true → plain_targets w' names = true.
Proof.
  intros Hsub Hown. unfold plain_targets. rewrite !forallb_forall.
  intros H g Hin. specialize (H g Hin).
  destruct (Hsub g) as [-> | ->]; [done|].
  destruct (files w !! g) as [[[] content|]|]; try done.
  unfold plain_record in *. by rewrite Hown.
Qed.

Lemma kill_body_present port pid_file nd c w :
  files w !! pid_file = Some nd →
  plain_targets w [pid_file] = true →
  kill_body port pid_file (c, w)
  = (Ret Continue, kill_outcome pid_file nd c w).
Proof.
  intros Hf Hplain. unfold kill_body, signal_pid, kill_outcome. prims_unfold.
  simpl. rewrite Hf.
  rewrite bool_decide_eq_true_2 by eauto. simpl.
  destruct nd as [[] content|]; simpl; rewrite ?Hf; [|reflexivity..].
  destruct (PyText.int (PyText.strip content)) as [pid|e] eqn:Hint.
  2: { apply int_raise in Hint as ->. simpl. rewrite Hf. reflexivity. }
  assert (Hwide : (pid <=? 0) || (pid =? own_pid w) = false).
  { apply (plain_record_pid w content); [|exact Hint].
    apply (plain_targets_lookup w [pid_file] pid_file); [done|left|done]. }
  simpl.
  destruct (in_pid_t pid) eqn:Hr; [|reflexivity]. simpl.
  rewrite Hwide.
  destruct (procs w !! pid) as [p|] eqn:Hp.
  2: { simpl. rewrite Hf. reflexivity. }
  destruct (signalable p) eqn:Hs; simpl.
  2: { rewrite Hf. reflexivity. }
  destruct (exits_on_term p) eqn:Ht; simpl.
  - rewrite Hwide, lookup_delete_eq. simpl. rewrite Hf. reflexivity.
  - repeat (progress (rewrite ?Hwide, ?Hp, ?Hs, ?Hf; simpl)).
    unfold unlinked, add_killed. simpl. reflexivity.
Qed.

(** ** [kill_server]: what a run changes *)

Lemma sigterms_app evs1 evs2 :
  sigterms (evs1 ++ evs2) = sigterms evs1 + sigterms evs2.
Proof.
  induction evs1 as [|e evs1 IH]; simpl; [lia|].
  destruct e as [| | | |pid []| | |]; simpl; lia.
Qed.

Lemma sigterms_nonneg evs : 0 <= sigterms evs.
Proof.
  induction evs as [|e evs IH]; simpl; [lia|].
  destruct e as [| | | |pid []| | |]; lia.
Qed.

Lemma kill_progress_refl c w : kill_progress c w c w [].
Proof.
  split; simpl; auto.
  - by rewrite app_nil_r.
  - lia.
  - lia.
  - intros pid s H. inversion H.
Qed.

Lemma kill_progress_trans c1 w1 c2 w2 c3 w3 evs1 evs2 :
  kill_progress c1 w1 c2 w2 evs1 →
  kill_progress c2 w2 c3 w3 evs2 →
  kill_progress c1 w1 c3 w3 (evs1 ++ evs2).
Proof.
  intros [T1 K1 F1 L1 P1 S1] [T2 K2 F2 L2 P2 S2]. split.
  - rewrite T2, T1. by rewrite app_assoc.
  - rewrite sigterms_app. lia.
  - lia.
  - intros g. destruct (L2 g) as [->| ->]; auto.
  - intros pid. destruct (P2 pid) as [E2|[E2 (p & Hp & Hs)]].
    + rewrite E2. apply P1.
    + right. split; [done|].
      destruct (P1 pid) as [E1|[E1 _]]; [|congruence].
      exists p. by rewrite <- E1.
  - intros pid s [H|H]%elem_of_app; [eauto|].
    destruct (S2 pid s H) as (p & Hp & Hs).
    destruct (P1 pid) as [E1|[E1 _]]; [|congruence].
    exists p. by rewrite <- E1.
Qed.

Lemma delete_lookup_cases {K V} `{Countable K} (m : gmap K V) k g :
  delete k m !! g = None ∨ delete k m !! g = m !! g.
Proof.
  destruct (decide (k = g)) as [->|Hne].
  - left. apply lookup_delete_eq.
  - right. by apply lookup_delete_ne.
Qed.

Ltac signals_in_trace :=
  let H := fresh "H" in
  intros ? ? H;
  repeat (apply elem_of_cons in H as [[=]|H]; subst; eauto);
  inversion H.

Lemma kill_outcome_progress pid_file nd c w :
  ∃ evs, kill_progress c w (kill_outcome pid_file nd c w).1
           (kill_outcome pid_file nd c w).2 evs.
Proof.
  unfold kill_outcome.
  destruct nd as [[] content|].
  2,3: eexists [_]; split; simpl; [done|simpl; lia|simpl; lia|auto|auto|signals_in_trace].
  destruct (PyText.int (PyText.strip content)) as [pid|e].
  2: { eexists [_; _]; split; simpl;
       [by rewrite <- ?app_assoc|simpl; lia|simpl; lia|auto using delete_lookup_cases|auto
       |signals_in_trace]. }
  destruct (in_pid_t pid); simpl.
  2: { eexists [_]; split; simpl; [done|simpl; lia|simpl; lia|auto|auto|signals_in_trace]. }
  destruct (procs w !! pid) as [p|] eqn:Hp.
  2: { eexists [_; _]; split; simpl;
       [by rewrite <- ?app_assoc|simpl; lia|simpl; lia|auto using delete_lookup_cases|auto
       |signals_in_trace]. }
  destruct (signalable p) eqn:Hs; simpl.
  2: { eexists [_; _]; split; simpl;
       [by rewrite <- ?app_assoc|simpl; lia|simpl; lia|auto using delete_lookup_cases|auto
       |signals_in_trace]. }
  assert (Hdel : ∀ q, delete pid (procs w) !! q = procs w !! q
     ∨ (delete pid (procs w) !! q = None
        ∧ ∃ p0, procs w !! q = Some p0 ∧ signalable p0 = true)).
  { intros q. destruct (decide (pid = q)) as [<-|Hne].
    - right. rewrite lookup_delete_eq. eauto.
    - left. by apply lookup_delete_ne. }
  destruct (exits_on_term p); simpl.
  - eexists [_; _; _; _]; split; simpl;
      [by rewrite <- ?app_assoc|simpl; lia|simpl; lia|auto using delete_lookup_cases|auto
      |signals_in_trace].
  - exists [EvSignal pid SIGTERM;
            EvPrint Stdout (MsgStopped (port_of pid_file) pid);
            EvSleep 1000; EvPrint Stdout MsgForceKilling;
            EvSignal pid SIGKILL; EvSleep 500; EvUnlink pid_file].
    split; cbn [fst snd unlinked trace files procs log set_files set_procs
                add_killed killed_count failed_count sigterms];
      [by rewrite <- !app_assoc|lia|lia|auto using delete_lookup_cases|auto
      |signals_in_trace].
Qed.

(** ** [kill_server]: the loop *)

Lemma kill_outcome_own_pid pid_file nd c w :
  own_pid (kill_outcome pid_file nd c w).2 = own_pid w.
Proof. unfold kill_outcome. by repeat case_match. Qed.

Lemma kill_body_own_pid port pid_file c w ctl c' w' :
  plain_targets w [pid_file] = true →
  kill_body port pid_file (c, w) = (Ret ctl, (c', w')) →
  own_pid w' = own_pid w.
Proof.
  intros Hplain Hb. destruct (files w !! pid_file) as [nd|] eqn:Hf.
  - rewrite (kill_body_present _ _ _ _ _ Hf Hplain) in Hb.
    assert (Hk : kill_outcome pid_file nd c w = (c', w')) by congruence.
    rewrite <- (kill_outcome_own_pid pid_file nd c w). by rewrite Hk.
  - rewrite (kill_body_absent _ _ _ _ Hf) in Hb.
    destruct (truthy port); injection Hb as _ _ <-; reflexivity.
Qed.

(** On plain targets the loop body always returns. *)
Lemma kill_body_progress port pid_file c w :
  plain_targets w [pid_file] = true →
  ∃ ctl c' w' evs,
    kill_body port pid_file (c, w) = (Ret ctl, (c', w'))
    ∧ kill_progress c w c' w' evs
    ∧ (truthy port = false → ctl = Continue)
    ∧ (ctl = Continue ∨ ctl = Return 0 ∧ c' = c ∧ sigterms evs = 0).
Proof.
  intros Hplain. destruct (files w !! pid_file) as [nd|] eqn:Hf.
  - rewrite (kill_body_present _ _ _ _ _ Hf Hplain).
    destruct (kill_outcome_progress pid_file nd c w) as [evs Hp].
    destruct (kill_outcome pid_file nd c w) as [c' w'].
    exists Continue, c', w', evs. auto.
  - rewrite (kill_body_absent _ _ _ _ Hf). destruct (truthy port).
    + eexists (Return 0), c, _,
        [EvPrint Stdout (MsgNoViewerOnPort (port_value port))].
      split; [reflexivity|].
      split; [|split; [discriminate|right; repeat split; reflexivity]].
      split; simpl; [done|simpl; lia|lia|auto|auto|signals_in_trace].
    + exists Continue, c, w, []. auto using kill_progress_refl.
Qed.

Lemma kill_loop_progress port pid_files c w :
  plain_targets w pid_files = true →
  ∃ ctl c' w' evs,
    kill_loop port pid_files (c, w) = (Ret ctl, (c', w'))
    ∧ kill_progress c w c' w' evs
    ∧ (truthy port = false → ctl = Continue)
    ∧ own_pid w' = own_pid w.
Proof.
  revert c w. induction pid_files as [|f l IH]; intros c w Hplain.
  - exists Continue, c, w, []. auto using kill_progress_refl.
  - apply plain_targets_cons in Hplain as [Hf Hl].
    destruct (kill_body_progress port f c w Hf)
      as (ctl & c1 & w1 & evs1 & Hb & Hp1 & Hc & _).
    pose proof (kill_body_own_pid _ _ _ _ _ _ _ Hf Hb) as Hown.
    simpl. rewrite bind_eq, Hb. destruct ctl as [|v].
    + assert (Hl1 : plain_targets w1 l = true).
      { apply (plain_targets_sub w); [apply Hp1|exact Hown|exact Hl]. }
      destruct (IH c1 w1 Hl1)
        as (ctl & c2 & w2 & evs2 & Hl2 & Hp2 & Hc2 & Hown2).
      exists ctl, c2, w2, (evs1 ++ evs2)%list.
      split; [exact Hl2|]. split; [eauto using kill_progress_trans|].
      split; [exact Hc2|congruence].
    + exists (Return v), c1, w1, evs1. auto.
Qed.

(** [kill_targets] always returns, and its result is the number of
    termination signals it delivered. *)
Lemma kill_targets_count port pid_files w :
  (truthy port = true → ∃ f, pid_files = [f]) →
  plain_targets w pid_files = true →
  ∃ n w' evs,
    kill_targets port pid_files w = (Ret n, w')
    ∧ trace w' = (trace w ++ evs)%list
    ∧ n = sigterms evs
    ∧ (∀ g, files w' !! g = None ∨ files w' !! g = files w !! g)
    ∧ (∀ pid s, EvSignal pid s ∈ evs → is_Some (procs w !! pid)).
Proof.
  intros Hsingle Hplain. destruct pid_files as [|f l].
  { unfold kill_targets.
    destruct (truthy port); eexists 0, _, [_]; (split; [reflexivity|]);
      (split; [reflexivity|]); repeat split; auto; signals_in_trace. }
  set (c0 := {| killed_count := 0; failed_count := 0 |}).
  assert (Hrun : ∃ ctl c' w' evs,
    kill_loop port (f :: l) (c0, w) = (Ret ctl, (c', w'))
    ∧ kill_progress c0 w c' w' evs
    ∧ (ctl = Continue ∨ ctl = Return 0 ∧ sigterms evs = 0)).
  { destruct (truthy port) eqn:Ht.
    - destruct Hsingle as [f' [= -> ->]]; [done|].
      destruct (kill_body_progress port f' c0 w Hplain)
        as (ctl & c1 & w1 & evs1 & Hb & Hp1 & _ & Hc).
      exists ctl, c1, w1, evs1. simpl. rewrite bind_eq, Hb.
      split; [by destruct ctl|]. split; [done|]. tauto.
    - destruct (kill_loop_progress port (f :: l) c0 w Hplain)
        as (ctl & c1 & w1 & evs1 & Hl & Hp1 & Hc & _).
      exists ctl, c1, w1, evs1. auto. }
  destruct Hrun as (ctl & c' & w' & evs & Hl & [T K F L P S] & Hctl).
  unfold kill_targets, with_counters. rewrite bind_eq. fold c0. rewrite Hl.
  simpl in K. destruct Hctl as [->|[-> Hz]]; simpl.
  - destruct (0 <? killed_count c') eqn:Hk.
    + eexists _, _, (evs ++ [_])%list. split; [reflexivity|].
      simpl. rewrite T, <- app_assoc. split; [done|].
      rewrite sigterms_app. simpl. split; [lia|]. split; [done|].
      intros pid s [H|H]%elem_of_app.
      * destruct (S pid s H) as (p & -> & _). eauto.
      * apply list_elem_of_singleton in H. discriminate.
    + exists (killed_count c'), w', evs. repeat split; auto.
      intros pid s H. destruct (S pid s H) as (p & -> & _). eauto.
  - exists 0, w', evs. repeat split; auto.
    intros pid s H. destruct (S pid s H) as (p & -> & _). eauto.
Qed.

Lemma kill_server_targets directory port kill_all w :
  kill_server directory port kill_all w
  = kill_targets port (kill_target_names port (write_tested w))
      (write_tested w).
Proof.
  unfold kill_server, kill_target_names.
  rewrite bind_eq. cbn [resolve_serve_dir].
  rewrite bind_eq, get_pid_directory_eq. cbv beta iota.
  destruct (truthy port), kill_all; reflexivity.
Qed.

Lemma elem_of_kill_target_names port w g :
  g ∈ kill_target_names port (write_tested w) →
  g ∈ kill_target_names port w.
Proof.
  unfold kill_target_names. destruct (truthy port); [done|].
  rewrite !list_elem_of_filter, !list_elem_of_fmap.
  intros [Hm ([g' nd] & -> & Hin)]. split; [done|].
  apply elem_of_map_to_list in Hin. cbn [fst] in *.
  rewrite write_tested_record in Hin by done.
  exists (g', nd). split; [done|]. by apply elem_of_map_to_list.
Qed.

(** Plain targets stay plain after the write test. *)
Lemma plain_targets_write_tested port w :
  plain_targets w (kill_target_names port w) = true →
  plain_targets (write_tested w)
    (kill_target_names port (write_tested w)) = true.
Proof.
  unfold plain_targets at 1 2. rewrite !forallb_forall.
  intros H g Hin. apply list_elem_of_In in Hin.
  pose proof (elem_of_kill_target_names _ _ _ Hin) as Hin'.
  apply list_elem_of_In in Hin'. specialize (H g Hin').
  destruct (write_tested_files_sub w g) as [-> | ->]; [done|].
  destruct (files w !! g) as [[[] content|]|]; try done.
  unfold plain_record in *. by rewrite write_tested_own_pid.
Qed.

(** What the loop body does with a readable plain record whose PID is not
    in the process table: the signal raises "no such process", the PID is
    reported as already stopped, neither counter moves, and the record is
    unlinked. *)
Lemma kill_body_not_found port f content pid c w :
  files w !! f = Some (RegFile true content) →
  plain_record w content = true →
  PyText.int (PyText.strip content) = Ret pid →
  in_pid_t pid = true →
  procs w !! pid = None →
  kill_body port f (c, w)
  = (Ret Continue,
     (c, unlinked f (log (EvPrint Stdout (MsgNotFound pid)) w))).
Proof.
  intros Hf Hplain Hint Hr Hp.
  rewrite (kill_body_present _ _ _ _ _ Hf).
  - unfold kill_outcome. by rewrite Hint, Hr, Hp.
  - unfold plain_targets. cbn [forallb]. by rewrite Hf, Hplain.
Qed.

(** C1 (as amended). On plain targets [kill_server] always returns, and
    what it returns is the number of termination signals it delivered. A
    PID that is not in the process table (the signal raises "no such
    process") is never signalled and so adds nothing to the result: the
    loop body reports it as already stopped, leaves [killed_count] and
    [failed_count] as they are and unlinks the record. The command exits
    with 0 exactly when at least one signal was delivered. *)
Theorem kill_server_counts_delivered_signals (directory : option string)
    (port : option Z) (kill_all : bool) (w : world) :
  plain_targets w (kill_target_names port w) = true →
  (∃ n w' evs,
    kill_server directory port kill_all w = (Ret n, w')
    ∧ trace w' = (trace w ++ evs)%list
    ∧ n = sigterms evs
    ∧ (∀ pid s, procs w !! pid = None → EvSignal pid s ∉ evs)
    ∧ main (CliKill directory port kill_all) w
      = (if 0 <? sigterms evs then 0 else 1, w'))
  ∧ (∀ f content pid c w0,
       files w0 !! f = Some (RegFile true content) →
       plain_record w0 content = true →
       PyText.int (PyText.strip content) = Ret pid →
       in_pid_t pid = true →
       procs w0 !! pid = None →
       kill_body port f (c, w0)
       = (Ret Continue,
          (c, unlinked f (log (EvPrint Stdout (MsgNotFound pid)) w0)))).
Proof.
  intros Hplain. split; [|apply kill_body_not_found].
  rewrite kill_server_targets.
  destruct (kill_targets_count port
              (kill_target_names port (write_tested w)) (write_tested w))
    as (n & w' & evs & Hk & Ht & Hn & _ & Hs).
  { intros Hp. unfold kill_target_names. rewrite Hp. eauto. }
  { by apply plain_targets_write_tested. }
  rewrite write_tested_trace in Ht. rewrite write_tested_procs in Hs.
  exists n, w', evs. split; [exact Hk|]. split; [exact Ht|].
  split; [exact Hn|]. split.
  - intros pid s Hp Hin. destruct (Hs pid s Hin) as [p Hp'].
    congruence.
  - unfold main. rewrite kill_server_targets, Hk. simpl. by subst n.
Qed.

Lemma kill_server_counts_delivered_signals_witness :
  plain_targets mixed_records_world
    (kill_target_names None mixed_records_world) = true
  ∧ ∃ n w' evs,
      kill_server None None false mixed_records_world = (Ret n, w')
      ∧ trace w' = (trace mixed_records_world ++ evs)%list
      ∧ n = sigterms evs
      ∧ (∀ pid s, procs mixed_records_world !! pid = None →
           EvSignal pid s ∉ evs)
      ∧ main (CliKill None None false) mixed_records_world
        = (if 0 <? sigterms evs then 0 else 1, w').
Proof.
  assert (H : plain_targets mixed_records_world
                (kill_target_names None mixed_records_world) = true)
    by (vm_compute; reflexivity).
  split; [exact H|].
  exact (proj1 (kill_server_counts_delivered_signals None None false
                  mixed_records_world H)).
Defined.

(** C1 (counterexample). The record of port 4444 names PID 777, which is
    not running: the termination signal raises "no such process". The claim
    counts this target as a success, so [kill_server] would return 1 and
    the command exit with 0; the code returns 0 and the command exits
    with 1. *)
Lemma kill_already_stopped_not_counted :
  os_kill 777 SIGTERM stale_record_world
  = (Raise (OSError ESRCH), stale_record_world)
  ∧ fst (kill_server None (Some 4444) false stale_record_world) = Ret 0
  ∧ fst (main (CliKill None (Some 4444) false) stale_record_world) = 1.
Proof. vm_compute. auto. Qed.

(** ** [kill_server]: the record files of the targets *)

Lemma kill_outcome_other_files pid_file nd c w g :
  g ≠ pid_file → files (kill_outcome pid_file nd c w).2 !! g = files w !! g.
Proof.
  intros Hne. unfold kill_outcome.
  repeat case_match; simpl; rewrite ?lookup_delete_ne by done; reflexivity.
Qed.

Lemma kill_outcome_deletes pid_file content c w :
  signal_ready content →
  files (kill_outcome pid_file (RegFile true content) c w).2 !! pid_file = None.
Proof.
  intros Hready. unfold kill_outcome.
  destruct (PyText.int (PyText.strip content)) as [pid|e] eqn:Hint.
  2: { simpl. apply lookup_delete_eq. }
  rewrite (Hready pid Hint). simpl.
  repeat case_match; simpl; apply lookup_delete_eq.
Qed.

Lemma kill_outcome_counts_refusal pid_file content c w pid p :
  PyText.int (PyText.strip content) = Ret pid → in_pid_t pid = true →
  procs w !! pid = Some p → signalable p = false →
  failed_count (kill_outcome pid_file (RegFile true content) c w).1
  = failed_count c + 1.
Proof.
  intros Hint Hr Hp Hs. unfold kill_outcome.
  rewrite Hint, Hr, Hp, Hs. reflexivity.
Qed.

Lemma kill_body_other_files port pid_file c w ctl c' w' g :
  plain_targets w [pid_file] = true →
  kill_body port pid_file (c, w) = (Ret ctl, (c', w')) →
  g ≠ pid_file → files w' !! g = files w !! g.
Proof.
  intros Hplain Hb Hne. destruct (files w !! pid_file) as [nd|] eqn:Hf.
  - rewrite (kill_body_present _ _ _ _ _ Hf Hplain) in Hb.
    assert (Hk : kill_outcome pid_file nd c w = (c', w')) by congruence.
    rewrite <- (kill_outcome_other_files pid_file nd c w g Hne).
    by rewrite Hk.
  - rewrite (kill_body_absent _ _ _ _ Hf) in Hb.
    destruct (truthy port); injection Hb as _ _ <-; reflexivity.
Qed.

(** Without an early [return], a target whose record can be read and acted
    on is gone when the loop ends; a refused signal has been counted. *)
Lemma kill_loop_deletes port pid_files c w f content :
  truthy port = false →
  plain_targets w pid_files = true →
  f ∈ pid_files →
  files w !! f = Some (RegFile true content) →
  signal_ready content →
  ∃ c' w' evs,
    kill_loop port pid_files (c, w) = (Ret Continue, (c', w'))
    ∧ kill_progress c w c' w' evs
    ∧ files w' !! f = None
    ∧ (∀ pid p, PyText.int (PyText.strip content) = Ret pid →
         procs w !! pid = Some p → signalable p = false →
         failed_count c < failed_count c').
Proof.
  intros Hport Hplain Hin Hf Hready. revert c w Hplain Hf.
  induction pid_files as [|g l IH]; intros c w Hplain Hf; [inversion Hin|].
  apply plain_targets_cons in Hplain as [Hpg Hpl].
  destruct (kill_body_progress port g c w Hpg)
    as (ctl & c1 & w1 & evs1 & Hb & Hp1 & Hc & _).
  rewrite (Hc Hport) in Hb.
  assert (Hpl1 : plain_targets w1 l = true).
  { apply (plain_targets_sub w); [apply Hp1| |exact Hpl].
    exact (kill_body_own_pid _ _ _ _ _ _ _ Hpg Hb). }
  simpl. rewrite bind_eq, Hb.
  destruct (decide (f = g)) as [->|Hne].
  - rewrite (kill_body_present _ _ _ _ _ Hf Hpg) in Hb.
    assert (Hk : kill_outcome g (RegFile true content) c w = (c1, w1))
      by congruence.
    clear Hb.
    destruct (kill_loop_progress port l c1 w1 Hpl1)
      as (ctl2 & c2 & w2 & evs2 & Hl & Hp2 & Hc2 & _).
    rewrite (Hc2 Hport) in Hl.
    exists c2, w2, (evs1 ++ evs2)%list.
    split; [exact Hl|]. split; [eauto using kill_progress_trans|].
    assert (Hgone : files w1 !! g = None).
    { pose proof (kill_outcome_deletes g content c w Hready) as Hd.
      by rewrite Hk in Hd. }
    split.
    + destruct (kp_files _ _ _ _ _ Hp2 g) as [->| ->]; done.
    + intros pid p Hint Hp Hs.
      pose proof (kill_outcome_counts_refusal g content c w pid p Hint
                    (Hready pid Hint) Hp Hs) as Hcnt.
      rewrite Hk in Hcnt. simpl in Hcnt.
      pose proof (kp_failed _ _ _ _ _ Hp2). lia.
  - assert (Hin' : f ∈ l).
    { apply elem_of_cons in Hin as [?|?]; [congruence|done]. }
    assert (Hf1 : files w1 !! f = Some (RegFile true content)).
    { rewrite (kill_body_other_files _ _ _ _ _ _ _ f Hpg Hb Hne). exact Hf. }
    destruct (IH Hin' c1 w1 Hpl1 Hf1)
      as (c2 & w2 & evs2 & Hl & Hp2 & Hgone & Hcnt).
    exists c2, w2, (evs1 ++ evs2)%list.
    split; [exact Hl|]. split; [eauto using kill_progress_trans|].
    split; [exact Hgone|].
    intros pid p Hint Hp Hs.
    assert (Hp1' : procs w1 !! pid = Some p).
    { destruct (kp_procs _ _ _ _ _ Hp1 pid) as [->|[_ (p' & Hp' & Hs')]];
        [done|congruence]. }
    pose proof (Hcnt pid p Hint Hp1' Hs).
    pose proof (kp_failed _ _ _ _ _ Hp1). lia.
Qed.

Lemma kill_loop_deletes_single port c w f content :
  plain_targets w [f] = true →
  files w !! f = Some (RegFile true content) →
  signal_ready content →
  ∃ c' w' evs,
    kill_loop port [f] (c, w) = (Ret Continue, (c', w'))
    ∧ kill_progress c w c' w' evs
    ∧ files w' !! f = None
    ∧ (∀ pid p, PyText.int (PyText.strip content) = Ret pid →
         procs w !! pid = Some p → signalable p = false →
         failed_count c < failed_count c').
Proof.
  intros Hplain Hf Hready.
  destruct (kill_outcome_progress f (RegFile true content) c w) as [evs Hp].
  pose proof (kill_outcome_deletes f content c w Hready) as Hd.
  pose proof (kill_outcome_counts_refusal f content c w) as Hcnt.
  simpl. rewrite bind_eq, (kill_body_present _ _ _ _ _ Hf Hplain).
  destruct (kill_outcome f (RegFile true content) c w) as [c' w'].
  exists c', w', evs.
  split; [reflexivity|]. split; [exact Hp|]. split; [exact Hd|].
  intros pid p Hint Hp' Hs.
  specialize (Hcnt pid p Hint (Hready pid Hint) Hp' Hs). simpl in Hcnt. lia.
Qed.

Lemma pid_file_name_not_write_test port : pid_file_name port ≠ ".write_test".
Proof.
  unfold pid_file_name.
  change ("fileserver." ++ PyText.str port ++ ".pid")
    with (String "f" ("ileserver." ++ PyText.str port ++ ".pid")).
  discriminate.
Qed.

(** A target of [kill_server] is not the file of the write test. *)
Lemma kill_target_not_write_test port w f :
  f ∈ kill_target_names port w → f ≠ ".write_test".
Proof.
  unfold kill_target_names. destruct (truthy port).
  - intros ->%list_elem_of_singleton. apply pid_file_name_not_write_test.
  - intros [Hm _]%list_elem_of_filter ->. discriminate.
Qed.

Lemma elem_of_kill_target_names_tested port w f nd :
  f ∈ kill_target_names port w → files w !! f = Some nd →
  f ∈ kill_target_names port (write_tested w).
Proof.
  intros Hin Hf. pose proof (kill_target_not_write_test _ _ _ Hin) as Hne.
  revert Hin. unfold kill_target_names. destruct (truthy port); [done|].
  rewrite !list_elem_of_filter, !list_elem_of_fmap.
  intros [Hm _]. split; [done|].
  exists (f, nd). split; [done|]. apply elem_of_map_to_list.
  by rewrite write_tested_files.
Qed.

(** C6 (as amended). Let the targets be plain records. A targeted record
    file that exists, can be read and, when its text is a PID, names one
    that [os.kill] accepts, is deleted before [kill_server] returns,
    whatever the signalling gave: delivered, no such process, or refused.
    The loop is run to its end (no target ends it early), and a refused
    signal has been counted in [failed_count]. *)
Theorem kill_server_deletes_readable_target (directory : option string)
    (port : option Z) (kill_all : bool) (w : world) (f content : string) :
  plain_targets w (kill_target_names port w) = true →
  f ∈ kill_target_names port w →
  files w !! f = Some (RegFile true content) →
  signal_ready content →
  ∃ n w' c' w1,
    kill_server directory port kill_all w = (Ret n, w')
    ∧ files w' !! f = None
    ∧ with_counters
        (kill_loop port (kill_target_names port (write_tested w)))
        (write_tested w)
      = (Ret (Continue, c'), w1)
    ∧ files w1 = files w'
    ∧ (∀ pid p, PyText.int (PyText.strip content) = Ret pid →
         procs w !! pid = Some p → signalable p = false →
         0 < failed_count c').
Proof.
  intros Hplain Hin Hf Hready.
  pose proof (plain_targets_write_tested _ _ Hplain) as Hplain'.
  pose proof (elem_of_kill_target_names_tested _ _ _ _ Hin Hf) as Hin'.
  assert (Hf' : files (write_tested w) !! f = Some (RegFile true content)).
  { rewrite write_tested_files; [done|].
    by apply (kill_target_not_write_test port w). }
  set (wt := write_tested w) in *.
  set (c0 := {| killed_count := 0; failed_count := 0 |}).
  assert (Hloop : ∃ c' w1 evs,
    kill_loop port (kill_target_names port wt) (c0, wt)
    = (Ret Continue, (c', w1))
    ∧ kill_progress c0 wt c' w1 evs
    ∧ files w1 !! f = None
    ∧ (∀ pid p, PyText.int (PyText.strip content) = Ret pid →
         procs wt !! pid = Some p → signalable p = false →
         failed_count c0 < failed_count c')).
  { destruct (truthy port) eqn:Hp.
    - unfold kill_target_names in *. rewrite Hp in *.
      apply list_elem_of_singleton in Hin' as ->.
      by apply kill_loop_deletes_single.
    - by apply kill_loop_deletes. }
  destruct Hloop as (c' & w1 & evs & Hl & Hprog & Hgone & Hcnt).
  assert (Hne : kill_target_names port wt ≠ []).
  { intros E. rewrite E in Hin'. inversion Hin'. }
  assert (Hcnt' : ∀ pid p, PyText.int (PyText.strip content) = Ret pid →
             procs w !! pid = Some p → signalable p = false →
             0 < failed_count c').
  { intros pid p Hint Hp Hs. apply (Hcnt pid p Hint); [|exact Hs].
    unfold wt. by rewrite write_tested_procs. }
  rewrite kill_server_targets. fold wt. unfold kill_targets.
  destruct (kill_target_names port wt) as [|g l] eqn:Ht; [done|].
  rewrite bind_eq. unfold with_counters. fold c0. rewrite Hl. simpl.
  destruct (0 <? killed_count c').
  - eexists _, _, c', w1. split; [reflexivity|]. simpl. auto.
  - exists (killed_count c'), w1, c', w1. auto.
Qed.

Lemma kill_server_deletes_readable_target_witness :
  plain_targets foreign_process_world
    (kill_target_names (Some 4444) foreign_process_world) = true
  ∧ "fileserver.4444.pid" ∈ kill_target_names (Some 4444) foreign_process_world
  ∧ files foreign_process_world !! "fileserver.4444.pid"
    = Some (RegFile true "777")
  ∧ signal_ready "777"
  ∧ ∃ n w' c' w1,
      kill_server None (Some 4444) false foreign_process_world = (Ret n, w')
      ∧ files w' !! "fileserver.4444.pid" = None
      ∧ with_counters
          (kill_loop (Some 4444)
             (kill_target_names (Some 4444)
                (write_tested foreign_process_world)))
          (write_tested foreign_process_world)
        = (Ret (Continue, c'), w1)
      ∧ files w1 = files w'
      ∧ (∀ pid p, PyText.int (PyText.strip "777") = Ret pid →
           procs foreign_process_world !! pid = Some p →
           signalable p = false → 0 < failed_count c').
Proof.
  assert (H0 : plain_targets foreign_process_world
                 (kill_target_names (Some 4444) foreign_process_world)
               = true).
  { vm_compute. reflexivity. }
  assert (H1 : "fileserver.4444.pid"
               ∈ kill_target_names (Some 4444) foreign_process_world).
  { vm_compute. left. }
  assert (H2 : files foreign_process_world !! "fileserver.4444.pid"
               = Some (RegFile true "777")).
  { reflexivity. }
  assert (H3 : signal_ready "777").
  { intros pid H. vm_compute in H. injection H as <-. reflexivity. }
  split; [exact H0|]. split; [exact H1|]. split; [exact H2|].
  split; [exact H3|].
  exact (kill_server_deletes_readable_target None (Some 4444) false
           foreign_process_world "fileserver.4444.pid" "777" H0 H1 H2 H3).
Defined.

(** C6 (counterexample). The targeted record file exists but cannot be
    read: [read_text] raises, the handler of [except Exception] counts a
    failure and does not unlink, and the file is still there when
    [kill_server] has returned. *)
Lemma kill_leaves_unreadable_record :
  "fileserver.4444.pid" ∈ kill_target_names (Some 4444) unreadable_record_world
  ∧ ∃ w',
      kill_server None (Some 4444) false unreadable_record_world = (Ret 0, w')
      ∧ files w' !! "fileserver.4444.pid" = Some (RegFile false "4242").
Proof.
  split; [vm_compute; left|].
  eexists. split; [vm_compute; reflexivity|]. reflexivity.
Qed.

(** The amended claim leaves out a record whose PID [os.kill] does not
    accept: the text is read, the call raises [OverflowError], the handler
    of [except Exception] counts a failure and does not unlink. *)
Lemma kill_leaves_oversized_pid_record :
  plain_targets oversized_pid_world
    (kill_target_names (Some 4444) oversized_pid_world) = true
  ∧ ¬ signal_ready "99999999999"
  ∧ ∃ w',
      kill_server None (Some 4444) false oversized_pid_world = (Ret 0, w')
      ∧ files w' !! "fileserver.4444.pid"
        = Some (RegFile true "99999999999").
Proof.
  split; [vm_compute; reflexivity|]. split.
  - intros H. specialize (H 99999999999). vm_compute in H.
    by specialize (H eq_refl).
  - eexists. split; [vm_compute; reflexivity|]. reflexivity.
Qed.

(** The amended claim leaves out a record that is not plain: [0] names the
    process group of the caller. The termination signal ends the
    interpreter before line 440: [kill_server] does not return, the record
    stays, and the command ends with the status of a death by signal
    15. *)
Lemma kill_ended_by_its_own_signal :
  plain_targets zero_pid_world
    (kill_target_names (Some 4444) zero_pid_world) = false
  ∧ signal_ready "0"
  ∧ ∃ w',
      kill_server None (Some 4444) false zero_pid_world
      = (Raise (SignalExit 15), w')
      ∧ files w' !! "fileserver.4444.pid" = Some (RegFile true "0")
      ∧ main (CliKill None (Some 4444) false) zero_pid_world = (143, w').
Proof.
  split; [vm_compute; reflexivity|]. split.
  - intros pid H. vm_compute in H. injection H as <-. reflexivity.
  - eexists. split; [vm_compute; reflexivity|].
    split; [reflexivity|]. vm_compute. reflexivity.
Qed.

(** ** [kill_server] without a port: every record is a target *)

(** What the loop body does to the processes: nothing, or it has delivered
    the termination signal to the process that the record names, which is
    then gone from the table. *)
Lemma kill_outcome_signal_cases f nd c w :
  (procs (kill_outcome f nd c w).2 = procs w
   ∧ ∀ content pid p,
       nd = RegFile true content →
       PyText.int (PyText.strip content) = Ret pid →
       in_pid_t pid = true →
       procs w !! pid = Some p → signalable p = false)
  ∨ (∃ content pid p evs,
       nd = RegFile true content
       ∧ PyText.int (PyText.strip content) = Ret pid
       ∧ procs w !! pid = Some p
       ∧ procs (kill_outcome f nd c w).2 = delete pid (procs w)
       ∧ trace (kill_outcome f nd c w).2 = (trace w ++ evs)%list
       ∧ EvSignal pid SIGTERM ∈ evs).
Proof.
  unfold kill_outcome.
  destruct nd as [[] content|].
  2,3: left; split; [reflexivity|]; intros ? ? ? [=].
  destruct (PyText.int (PyText.strip content)) as [pid|e] eqn:Hint.
  2: { left. split; [reflexivity|]. intros ? ? ? [= <-]. congruence. }
  destruct (in_pid_t pid) eqn:Hr; cbn [negb].
  2: { left. split; [reflexivity|]. intros ? ? ? [= <-]. congruence. }
  destruct (procs w !! pid) as [p|] eqn:Hp.
  2: { left. split; [reflexivity|]. intros ? ? ? [= <-]. congruence. }
  destruct (signalable p) eqn:Hs; cbn [negb].
  2: { left. split; [reflexivity|]. intros ? ? ? [= <-]. congruence. }
  right. exists content, pid, p.
  destruct (exits_on_term p).
  - exists [EvSignal pid SIGTERM;
            EvPrint Stdout (MsgStopped (port_of f) pid);
            EvSleep 1000; EvUnlink f].
    split; [done|]. split; [done|]. split; [done|]. split; [reflexivity|].
    split; [|left].
    cbn [snd unlinked trace log set_files set_procs].
    by rewrite <- !app_assoc.
  - exists [EvSignal pid SIGTERM;
            EvPrint Stdout (MsgStopped (port_of f) pid);
            EvSleep 1000; EvPrint Stdout MsgForceKilling;
            EvSignal pid SIGKILL; EvSleep 500; EvUnlink f].
    split; [done|]. split; [done|]. split; [done|]. split; [reflexivity|].
    split; [|left].
    cbn [snd unlinked trace log set_files set_procs].
    by rewrite <- !app_assoc.
Qed.

Lemma kill_outcome_trace f nd c w :
  ∃ evs, trace (kill_outcome f nd c w).2 = (trace w ++ evs)%list.
Proof.
  destruct (kill_outcome_progress f nd c w) as [evs Hp].
  exists evs. apply Hp.
Qed.

(** Without an early [return], the loop acts on every target: a readable
    record that names a PID which [os.kill] accepts is gone afterwards, a
    process that such a record names and that the caller may signal has
    received the termination signal, and no other file has changed. *)
Lemma kill_loop_acts port names c w :
  truthy port = false →
  plain_targets w names = true →
  NoDup names →
  ∃ c' w' evs,
    kill_loop port names (c, w) = (Ret Continue, (c', w'))
    ∧ trace w' = (trace w ++ evs)%list
    ∧ (∀ g content, g ∈ names →
         files w !! g = Some (RegFile true content) →
         signal_ready content → files w' !! g = None)
    ∧ (∀ g content pid p, g ∈ names →
         files w !! g = Some (RegFile true content) →
         PyText.int (PyText.strip content) = Ret pid →
         in_pid_t pid = true →
         procs w !! pid = Some p → signalable p = true →
         EvSignal pid SIGTERM ∈ evs)
    ∧ (∀ g, g ∉ names → files w' !! g = files w !! g).
Proof.
  intros Hport Hplain Hnd. revert c w Hplain.
  induction Hnd as [|h l Hh Hnd IH]; intros c w Hplain.
  { exists c, w, []. split; [reflexivity|]. rewrite app_nil_r.
    split; [done|]. split; [intros ? ? []%elem_of_nil|].
    split; [intros ? ? ? ? []%elem_of_nil|done]. }
  apply plain_targets_cons in Hplain as [Hph Hpl].
  destruct (kill_body_progress port h c w Hph)
    as (ctl & c1 & w1 & evs1 & Hb & Hp1 & Hc & _).
  rewrite (Hc Hport) in Hb.
  pose proof (kill_body_own_pid _ _ _ _ _ _ _ Hph Hb) as Hown.
  assert (Hpl1 : plain_targets w1 l = true).
  { apply (plain_targets_sub w); [apply Hp1|exact Hown|exact Hpl]. }
  assert (Hother : ∀ g, g ≠ h → files w1 !! g = files w !! g).
  { intros g Hg. exact (kill_body_other_files _ _ _ _ _ _ _ g Hph Hb Hg). }
  destruct (IH c1 w1 Hpl1) as (c2 & w2 & evs2 & Hl & Ht2 & Hdel & Hsig & Hkeep).
  exists c2, w2, (evs1 ++ evs2)%list.
  split; [simpl; by rewrite bind_eq, Hb|].
  split; [rewrite Ht2, (kp_trace _ _ _ _ _ Hp1); by rewrite app_assoc|].
  split; [|split].
  - intros g content [->|Hin]%elem_of_cons Hf Hready.
    + rewrite (Hkeep h Hh).
      rewrite (kill_body_present _ _ _ _ _ Hf Hph) in Hb.
      assert (Hk : kill_outcome h (RegFile true content) c w = (c1, w1))
        by congruence.
      pose proof (kill_outcome_deletes h content c w Hready) as Hd.
      by rewrite Hk in Hd.
    + apply (Hdel g content Hin); [|done].
      rewrite Hother; [done|]. intros ->. done.
  - intros g content pid p Hin Hf Hint Hr Hp Hs.
    apply elem_of_app.
    destruct (files w !! h) as [nd|] eqn:Hfh.
    2: { rewrite (kill_body_absent _ _ _ _ Hfh), Hport in Hb.
         injection Hb as <- <-. right.
         apply elem_of_cons in Hin as [->|Hin]; [congruence|].
         by apply (Hsig g content pid p). }
    rewrite (kill_body_present _ _ _ _ _ Hfh Hph) in Hb.
    assert (Hk : kill_outcome h nd c w = (c1, w1)) by congruence.
    destruct (kill_outcome_signal_cases h nd c w)
      as [[Hsame Hno]|(ct & q & pq & evs & -> & Hq & Hpq & Hprocs & Htr & Hev)];
      rewrite Hk in *; cbn [snd] in *.
    + right. apply elem_of_cons in Hin as [->|Hin].
      * rewrite Hfh in Hf. injection Hf as ->.
        specialize (Hno content pid p eq_refl Hint Hr Hp). congruence.
      * apply (Hsig g content pid p Hin); [| done..|by rewrite Hsame|done].
        rewrite Hother; [done|]. intros ->. done.
    + assert (evs = evs1) as ->.
      { rewrite (kp_trace _ _ _ _ _ Hp1) in Htr.
        by apply app_inv_head in Htr. }
      destruct (decide (q = pid)) as [->|Hne]; [by left|]. right.
      apply elem_of_cons in Hin as [->|Hin].
      * rewrite Hfh in Hf. injection Hf as ->. congruence.
      * apply (Hsig g content pid p Hin); [| done..| |done].
        -- rewrite Hother; [done|]. intros ->. done.
        -- by rewrite Hprocs, lookup_delete_ne.
  - intros g Hg. rewrite Hkeep, Hother; [done| |];
      intros Hx; apply Hg; [subst; left|by right].
Qed.

(** C10. [kill_server] with [port = 0] does not look for the record of port
    0: the port is falsy, and the run is the run without a port, in every
    world. On plain records that run returns and has acted on every
    record file of the directory, not on the one of port 0 alone: a
    readable record naming a PID that [os.kill] accepts is gone, a process
    that such a record names and that the caller may signal has received
    the termination signal, and nothing but record files and the file of
    the write test has changed. *)
Theorem kill_server_port_zero (directory : option string) (kill_all : bool)
    (w : world) :
  kill_server directory (Some 0) kill_all w
  = kill_server directory None kill_all w
  ∧ (plain_targets w (record_files w) = true →
     ∃ n w' evs,
       kill_server directory (Some 0) kill_all w = (Ret n, w')
       ∧ trace w' = (trace w ++ evs)%list
       ∧ (∀ g content, g ∈ record_files w →
            files w !! g = Some (RegFile true content) →
            signal_ready content → files w' !! g = None)
       ∧ (∀ g content pid p, g ∈ record_files w →
            files w !! g = Some (RegFile true content) →
            PyText.int (PyText.strip content) = Ret pid →
            in_pid_t pid = true →
            procs w !! pid = Some p → signalable p = true →
            EvSignal pid SIGTERM ∈ evs)
       ∧ (∀ g, matches_pid_glob g = false → g ≠ ".write_test" →
            files w' !! g = files w !! g)).
Proof.
  assert (Hsame : kill_server directory (Some 0) kill_all w
                  = kill_server directory None kill_all w).
  { rewrite !kill_server_targets. apply kill_targets_falsy. }
  split; [exact Hsame|]. intros Hplain.
  rewrite Hsame, kill_server_targets.
  change (kill_target_names None (write_tested w))
    with (record_files (write_tested w)).
  pose proof (plain_targets_write_tested None w Hplain) as Hplain'.
  change (kill_target_names None (write_tested w))
    with (record_files (write_tested w)) in Hplain'.
  assert (Hin' : ∀ g nd, g ∈ record_files w → files w !! g = Some nd →
            g ∈ record_files (write_tested w)
            ∧ files (write_tested w) !! g = Some nd).
  { intros g nd Hin Hf.
    pose proof (elem_of_kill_target_names_tested None w g nd Hin Hf) as H.
    split; [exact H|].
    rewrite write_tested_files; [done|].
    by apply (kill_target_not_write_test None w). }
  assert (Hglob : ∀ g, g ∈ record_files (write_tested w) →
            matches_pid_glob g = true).
  { intros g. unfold record_files. by intros [? _]%list_elem_of_filter. }
  destruct (kill_loop_acts None (record_files (write_tested w))
              {| killed_count := 0; failed_count := 0 |} (write_tested w)
              eq_refl Hplain')
    as (c' & w1 & evs & Hl & Ht & Hdel & Hsig & Hkeep).
  { unfold record_files. apply NoDup_filter, NoDup_fst_map_to_list. }
  rewrite write_tested_trace in Ht.
  assert (Hdel' : ∀ g content, g ∈ record_files w →
            files w !! g = Some (RegFile true content) →
            signal_ready content → files w1 !! g = None).
  { intros g content Hin Hf Hready.
    destruct (Hin' g _ Hin Hf) as [Hi Hf']. by apply (Hdel g content). }
  assert (Hsig' : ∀ g content pid p, g ∈ record_files w →
            files w !! g = Some (RegFile true content) →
            PyText.int (PyText.strip content) = Ret pid →
            in_pid_t pid = true →
            procs w !! pid = Some p → signalable p = true →
            EvSignal pid SIGTERM ∈ evs).
  { intros g content pid p Hin Hf Hint Hr Hp Hs.
    destruct (Hin' g _ Hin Hf) as [Hi Hf'].
    apply (Hsig g content pid p); try done.
    by rewrite write_tested_procs. }
  assert (Hkeep' : ∀ g, matches_pid_glob g = false → g ≠ ".write_test" →
            files w1 !! g = files w !! g).
  { intros g Hm Hne. rewrite Hkeep, write_tested_files; [done..|].
    intros Hg%Hglob. congruence. }
  unfold kill_targets.
  destruct (record_files (write_tested w)) as [|g0 l0] eqn:Hrec.
  { injection Hl as <- <-.
    eexists 0, _, [_]. split; [reflexivity|].
    cbn [trace files log]. rewrite write_tested_trace.
    split; [done|]. split; [exact Hdel'|]. split; [|exact Hkeep'].
    intros g content pid p Hin Hf Hint Hr Hp Hs.
    destruct (Hin' g _ Hin Hf) as [Hi _]. by apply elem_of_nil in Hi. }
  rewrite bind_eq. unfold with_counters. rewrite Hl. cbn [fst snd].
  destruct (0 <? killed_count c').
  - eexists _, _, (evs ++ [_])%list. split; [reflexivity|].
    cbn [trace files log].
    split; [by rewrite Ht, <- app_assoc|].
    split; [exact Hdel'|]. split; [|exact Hkeep'].
    intros g content pid p Hin Hf Hint Hr Hp Hs. apply elem_of_app. left.
    by apply (Hsig' g content pid p Hin Hf).
  - exists (killed_count c'), w1, evs. split; [reflexivity|]. auto.
Qed.

Lemma kill_server_port_zero_witness :
  plain_targets mixed_records_world (record_files mixed_records_world) = true
  ∧ ∃ w',
      kill_server None (Some 0) false mixed_records_world = (Ret 1, w')
      ∧ kill_server None None false mixed_records_world = (Ret 1, w')
      ∧ files w' !! "fileserver.4444.pid" = None
      ∧ files w' !! "fileserver.4445.pid" = None
      ∧ EvSignal 500 SIGTERM ∈ trace w'.
Proof.
  assert (H : plain_targets mixed_records_world
                (record_files mixed_records_world) = true)
    by (vm_compute; reflexivity).
  split; [exact H|].
  destruct (kill_server_port_zero None false mixed_records_world)
    as [Hsame Hrun].
  destruct (Hrun H) as (n & w' & evs & H0 & Ht & Hdel & Hsig & _).
  assert (HN : kill_server None None false mixed_records_world = (Ret n, w'))
    by (by rewrite <- Hsame).
  assert (Hn : n = 1).
  { assert (E : (kill_server None (Some 0) false mixed_records_world).1
                = Ret 1) by (vm_compute; reflexivity).
    rewrite H0 in E. by injection E. }
  subst n. exists w'. split; [exact H0|]. split; [exact HN|].
  assert (Hrec : ∀ g, g = "fileserver.4444.pid" ∨ g = "fileserver.4445.pid" →
            g ∈ record_files mixed_records_world).
  { intros g [-> | ->]; apply list_elem_of_In; vm_compute; auto. }
  assert (Hready : ∀ s v, PyText.int (PyText.strip s) = Ret v →
            in_pid_t v = true → signal_ready s).
  { intros s v Hs Hv pid Hpid. congruence. }
  split; [|split].
  - apply (Hdel _ "500"); [apply Hrec; by left|reflexivity|].
    by apply (Hready "500" 500).
  - apply (Hdel _ "777"); [apply Hrec; by right|reflexivity|].
    by apply (Hready "777" 777).
  - rewrite Ht. apply elem_of_app. right.
    apply (Hsig "fileserver.4444.pid" "500" 500
             {| signalable := true; exits_on_term := false;
                listens_on := None; pgid := 500 |});
      [apply Hrec; by left|reflexivity..].
Defined.

(** ** Reading a record: [int(text.strip())] *)

Lemma rstrip_idem s : PyText.rstrip (PyText.rstrip s) = PyText.rstrip s.
Proof.
  induction s as [|c r IH]; [reflexivity|]. simpl.
  destruct (PyText.rstrip r) as [|c' r'] eqn:Hr.
  - destruct (PyText.is_space c) eqn:Hc; simpl; [reflexivity|].
    by rewrite Hc.
  - simpl. simpl in IH. by rewrite IH.
Qed.

Lemma lstrip_head s :
  PyText.lstrip s = ""
  ∨ ∃ c r, PyText.lstrip s = String c r ∧ PyText.is_space c = false.
Proof.
  induction s as [|c r IH]; simpl; [by left|].
  destruct (PyText.is_space c) eqn:Hc; [exact IH|]. right. eauto.
Qed.

Lemma rstrip_head c r :
  PyText.rstrip (String c r) = ""
  ∨ ∃ r', PyText.rstrip (String c r) = String c r'.
Proof.
  simpl. destruct (PyText.rstrip r); [|eauto].
  destruct (PyText.is_space c); eauto.
Qed.

Lemma strip_head s :
  PyText.strip s = ""
  ∨ ∃ c r, PyText.strip s = String c r ∧ PyText.is_space c = false.
Proof.
  unfold PyText.strip.
  destruct (lstrip_head s) as [->|(c & r & -> & Hc)]; [by left|].
  destruct (rstrip_head c r) as [->|[r' ->]]; eauto.
Qed.

Lemma strip_idem s : PyText.strip (PyText.strip s) = PyText.strip s.
Proof.
  assert (Hl : PyText.lstrip (PyText.strip s) = PyText.strip s).
  { destruct (strip_head s) as [->|(c & r & -> & Hc)]; [reflexivity|].
    simpl. by rewrite Hc. }
  unfold PyText.strip at 1. rewrite Hl. apply rstrip_idem.
Qed.

Lemma scan_digits_sound s :
  ∀ acc cnt prev v n,
    PyText.scan_digits acc cnt prev s = Some (v, n) →
    ∃ g gs,
      all_digits g = true ∧ Forall digit_group gs
      ∧ s = g ++ sep_groups gs
      ∧ (prev = false → g ≠ "")
      ∧ v = dec_value_acc acc (g ++ flatten gs)
      ∧ n = (cnt + String.length (g ++ flatten gs))%nat.
Proof.
  induction s as [|c r IH]; intros acc cnt prev v n H; simpl in H.
  - destruct prev; [|discriminate]. injection H as <- <-.
    exists "", []. simpl. repeat split; auto; try discriminate; lia.
  - destruct (PyText.is_digit c) eqn:Hd.
    + destruct (IH _ _ _ _ _ H) as (g & gs & Hg & Hgs & -> & _ & -> & ->).
      exists (String c g), gs. simpl. rewrite Hd, Hg.
      repeat split; auto; try discriminate; lia.
    + destruct (Ascii.eqb c "_") eqn:Hu; [|discriminate].
      destruct prev; [|discriminate]. simpl in H.
      apply Ascii.eqb_eq in Hu as ->.
      destruct (IH _ _ _ _ _ H) as (g & gs & Hg & Hgs & -> & Hne & -> & ->).
      exists "", (g :: gs). simpl.
      split; [done|]. split; [constructor; [split; auto|done]|].
      repeat split; auto.
Qed.

Lemma scan_digits_group g :
  all_digits g = true → g ≠ "" →
  ∀ acc cnt prev r,
    PyText.scan_digits acc cnt prev (g ++ r)
    = PyText.scan_digits (dec_value_acc acc g) (cnt + String.length g) true r.
Proof.
  induction g as [|c g IH]; intros Hd Hne acc cnt prev r; [done|].
  simpl in Hd. apply andb_true_iff in Hd as [Hc Hg].
  simpl. rewrite Hc. destruct g as [|c' g'].
  - simpl. f_equal. lia.
  - rewrite IH by done. f_equal. simpl. lia.
Qed.

Lemma dec_value_acc_app acc g h :
  dec_value_acc acc (g ++ h) = dec_value_acc (dec_value_acc acc g) h.
Proof. revert acc. induction g as [|c g IH]; intros acc; simpl; auto. Qed.

Lemma string_length_app (g h : string) :
  String.length (g ++ h) = (String.length g + String.length h)%nat.
Proof. induction g as [|c g IH]; simpl; auto. Qed.

Lemma scan_digits_groups gs :
  Forall digit_group gs →
  ∀ acc cnt,
    PyText.scan_digits acc cnt true (sep_groups gs)
    = Some (dec_value_acc acc (flatten gs),
            (cnt + String.length (flatten gs))%nat).
Proof.
  induction 1 as [|g gs [Hne Hd] Hgs IH]; intros acc cnt; simpl.
  - f_equal. f_equal. lia.
  - rewrite scan_digits_group by done. rewrite IH.
    rewrite dec_value_acc_app, string_length_app. f_equal. f_equal. lia.
Qed.

Lemma scan_digits_complete g gs acc cnt :
  digit_group g → Forall digit_group gs →
  PyText.scan_digits acc cnt false (g ++ sep_groups gs)
  = Some (dec_value_acc acc (g ++ flatten gs),
          (cnt + String.length (g ++ flatten gs))%nat).
Proof.
  intros [Hne Hd] Hgs. rewrite scan_digits_group by done.
  rewrite scan_digits_groups by done.
  rewrite dec_value_acc_app, string_length_app. f_equal. f_equal. lia.
Qed.

Lemma int_unsigned_literal s v :
  PyText.int_unsigned s = Ret v ↔ literal_body s v.
Proof.
  unfold PyText.int_unsigned, literal_body. split.
  - destruct (PyText.scan_digits 0 0 false s) as [[v' n]|] eqn:Hs;
      [|discriminate].
    destruct (n <=? PyText.int_max_str_digits)%nat eqn:Hn; [|discriminate].
    intros [= <-]. apply Nat.leb_le in Hn.
    destruct (scan_digits_sound _ _ _ _ _ _ Hs)
      as (g & gs & Hg & Hgs & -> & Hne & -> & ->).
    exists g, gs. repeat split; auto; lia.
  - intros (g & gs & Hg & Hgs & -> & Hlen & ->).
    rewrite scan_digits_complete by done. simpl.
    apply Nat.leb_le in Hlen. by rewrite Hlen.
Qed.

Lemma literal_body_digit s v :
  literal_body s v → ∃ c r, s = String c r ∧ PyText.is_digit c = true.
Proof.
  intros (g & gs & [Hne Hd] & _ & -> & _).
  destruct g as [|c g]; [done|]. simpl in Hd.
  apply andb_true_iff in Hd as [Hc _]. simpl. eauto.
Qed.

Lemma int_cases s :
  PyText.int s
  = match PyText.strip s with
    | EmptyString => PyText.int_unsigned ""
    | String c r =>
        if Ascii.eqb c "-" then PyText.negate (PyText.int_unsigned r)
        else if Ascii.eqb c "+" then PyText.int_unsigned r
        else PyText.int_unsigned (String c r)
    end.
Proof.
  unfold PyText.int. destruct (PyText.strip s) as [|c r]; [reflexivity|].
  destruct c as [[] [] [] [] [] [] [] []]; reflexivity.
Qed.

Lemma int_literal_iff s v :
  PyText.int s = Ret v ↔ int_literal (PyText.strip s) v.
Proof.
  rewrite int_cases. unfold int_literal.
  destruct (PyText.strip s) as [|c r] eqn:Hs.
  - rewrite int_unsigned_literal. split; [auto|].
    intros [(r & u & [=] & _)|[(r & [=] & _)|H]]. done.
  - destruct (Ascii.eqb c "-") eqn:Hm.
    { apply Ascii.eqb_eq in Hm as ->. split.
      - destruct (PyText.int_unsigned r) as [u|e] eqn:Hu; [|discriminate].
        intros [= <-]. left. exists r, u.
        by rewrite <- int_unsigned_literal.
      - intros [(r' & u & [= <-] & Hb & ->)|[(r' & [=] & _)|H]].
        + apply int_unsigned_literal in Hb. by rewrite Hb.
        + apply literal_body_digit in H as (c & r' & [= <- <-] & Hc).
          discriminate. }
    destruct (Ascii.eqb c "+") eqn:Hp.
    { apply Ascii.eqb_eq in Hp as ->.
      rewrite int_unsigned_literal. split; [eauto|].
      intros [(r' & u & [=] & _)|[(r' & [= <-] & Hb)|H]]; [done|].
      apply literal_body_digit in H as (c & r' & [= <- <-] & Hc).
      discriminate. }
    apply Ascii.eqb_neq in Hm, Hp.
    rewrite int_unsigned_literal. split; [auto|].
    intros [(r' & u & [= -> _] & _)|[(r' & [= -> _] & _)|H]]; done.
Qed.

Lemma dec_value_acc_nonneg s acc : 0 <= acc → 0 <= dec_value_acc acc s.
Proof.
  revert acc. induction s as [|c r IH]; intros acc Hacc; simpl; [done|].
  apply IH. unfold PyText.digit_val. lia.
Qed.

Lemma string_app_nil_r (s : string) : s ++ "" = s.
Proof.
  induction s as [|c r IH]; [reflexivity|].
  change (String c (r ++ "") = String c r). by rewrite IH.
Qed.

(** ** The liveness probe *)

Lemma is_process_running_eq pid w :
  is_process_running pid w
  = if in_pid_t pid then (Ret (running w pid), w)
    else (Raise OverflowError, w).
Proof.
  unfold is_process_running, running, os_kill. prims_unfold.
  destruct (in_pid_t pid); simpl; [|reflexivity].
  destruct ((pid <=? 0) || (pid =? own_pid w)).
  - unfold kill_wide.
    destruct (targets_caller w pid); [reflexivity|]. simpl.
    destruct (existsb (λ kp, in_target w pid kp.1 kp.2)
                (map_to_list (procs w))); [|reflexivity]. simpl.
    destruct ((pid =? -1)
              || existsb (λ kp, in_target w pid kp.1 kp.2 && signalable kp.2)
                   (map_to_list (procs w))); reflexivity.
  - destruct (procs w !! pid) as [p|]; simpl; [|reflexivity].
    destruct (signalable p); reflexivity.
Qed.

(** The probe of one other process. *)
Lemma running_other w pid :
  0 < pid → pid ≠ own_pid w →
  running w pid = match procs w !! pid with
                  | Some p => signalable p
                  | None => false
                  end.
Proof.
  intros H1 H2. unfold running.
  replace (pid <=? 0) with false by (symmetry; by apply Z.leb_gt).
  replace (pid =? own_pid w) with false by (symmetry; by apply Z.eqb_neq).
  reflexivity.
Qed.

Lemma probe_false_inv pid w :
  is_process_running pid w = (Ret false, w) →
  in_pid_t pid = true ∧ running w pid = false.
Proof.
  rewrite is_process_running_eq. destruct (in_pid_t pid); [|discriminate].
  intros [= ->]. done.
Qed.

(** ** [status_server] *)

Lemma status_loop_eq pid_files running_viewers stale_files w :
  status_loop pid_files running_viewers stale_files w
  = (classify w pid_files running_viewers stale_files, w).
Proof.
  revert running_viewers stale_files.
  induction pid_files as [|g l IH]; intros rv sf; [reflexivity|].
  simpl. rewrite bind_eq, try_catch_eq, bind_eq.
  unfold read_text, status_step.
  destruct (files w !! g) as [[[] content|]|]; try reflexivity.
  rewrite bind_eq. unfold lift_result at 1.
  destruct (PyText.int (PyText.strip content)) as [pid|e] eqn:Hint.
  - rewrite bind_eq, is_process_running_eq.
    destruct (in_pid_t pid); [|reflexivity].
    destruct (running w pid); simpl; apply IH.
  - apply int_raise in Hint as ->. simpl. apply IH.
Qed.

Lemma classify_ret w pid_files rv sf rv' sf' :
  classify w pid_files rv sf = Ret (rv', sf') →
  rv' = (rv ++ omap (live_entry w) pid_files)%list
  ∧ sf' = (sf ++ filter (λ g, is_stale w g = true) pid_files)%list.
Proof.
  revert rv sf. induction pid_files as [|g l IH]; intros rv sf H; simpl in H.
  - injection H as <- <-. simpl. by rewrite !app_nil_r.
  - destruct (status_step w g) as [[entry|]|e] eqn:Hs; [| |discriminate].
    + destruct (IH _ _ H) as [-> ->]. rewrite <- app_assoc.
      assert (Hl : live_entry w g = Some entry)
        by (unfold live_entry; by rewrite Hs).
      assert (Hst : is_stale w g ≠ true)
        by (unfold is_stale; by rewrite Hs).
      rewrite filter_cons_False by done.
      change (omap (live_entry w) (g :: l))
        with (match live_entry w g with
              | Some e => e :: omap (live_entry w) l
              | None => omap (live_entry w) l
              end).
      by rewrite Hl.
    + destruct (IH _ _ H) as [-> ->]. rewrite <- app_assoc.
      assert (Hl : live_entry w g = None)
        by (unfold live_entry; by rewrite Hs).
      assert (Hst : is_stale w g = true)
        by (unfold is_stale; by rewrite Hs).
      rewrite filter_cons_True by done.
      change (omap (live_entry w) (g :: l))
        with (match live_entry w g with
              | Some e => e :: omap (live_entry w) l
              | None => omap (live_entry w) l
              end).
      by rewrite Hl.
Qed.

Lemma classify_total w pid_files rv sf :
  Forall (λ g, ∃ x, status_step w g = Ret x) pid_files →
  ∃ rv' sf', classify w pid_files rv sf = Ret (rv', sf').
Proof.
  intros H. revert rv sf.
  induction H as [|g l [x Hx] _ IH]; intros rv sf; simpl; [eauto|].
  rewrite Hx. destruct x; apply IH.
Qed.

Lemma unlink_all_eq names w :
  NoDup names →
  (∀ g, g ∈ names → ∃ a c, files w !! g = Some (RegFile a c)) →
  unlink_all names w = (Ret tt, unlinked_all names w).
Proof.
  intros Hnd. revert w.
  induction Hnd as [|g l Hg Hnd IH]; intros w Hf; [reflexivity|].
  simpl. rewrite bind_eq. unfold unlink at 1.
  destruct (Hf g) as (a & c & ->); [left|]. fold (unlinked g w).
  apply IH. intros g' Hg'. simpl.
  rewrite lookup_delete_ne by (intros ->; done).
  apply Hf. by right.
Qed.

Lemma unlinked_all_files names w g :
  files (unlinked_all names w) !! g
  = if bool_decide (g ∈ names) then None else files w !! g.
Proof.
  revert w. induction names as [|h l IH]; intros w; simpl; [done|].
  rewrite IH. simpl.
  destruct (decide (g = h)) as [->|Hne].
  - rewrite lookup_delete_eq. rewrite (bool_decide_eq_true_2 (h ∈ h :: l));
      [|left]. by case_bool_decide.
  - rewrite lookup_delete_ne by done.
    destruct (bool_decide (g ∈ l)) eqn:Hl.
    + apply bool_decide_eq_true_1 in Hl.
      rewrite bool_decide_eq_true_2; [done|by right].
    + apply bool_decide_eq_false_1 in Hl.
      rewrite bool_decide_eq_false_2; [done|].
      intros [?|?]%elem_of_cons; done.
Qed.

Lemma unlinked_all_procs names w : procs (unlinked_all names w) = procs w.
Proof. revert w. induction names as [|h l IH]; intros w; simpl; [done|]. by rewrite IH. Qed.

Lemma record_files_NoDup w : NoDup (record_files w).
Proof.
  unfold record_files. apply NoDup_filter, NoDup_fst_map_to_list.
Qed.

Lemma elem_of_record_files w g :
  g ∈ record_files w ↔ matches_pid_glob g = true ∧ is_Some (files w !! g).
Proof.
  unfold record_files. rewrite list_elem_of_filter, list_elem_of_fmap.
  split.
  - intros [Hm ([g' nd] & -> & Hin)]. split; [done|].
    apply elem_of_map_to_list in Hin. simpl. eauto.
  - intros [Hm [nd Hnd]]. split; [done|]. exists (g, nd). split; [done|].
    by apply elem_of_map_to_list.
Qed.

Lemma is_stale_regfile w g :
  is_stale w g = true → ∃ c, files w !! g = Some (RegFile true c).
Proof.
  unfold is_stale, status_step.
  destruct (files w !! g) as [[[] c|]|]; try discriminate. eauto.
Qed.

Lemma unlink_stale_files w :
  unlink_all (stale_files_of w) w
  = (Ret tt, unlinked_all (stale_files_of w) w).
Proof.
  apply unlink_all_eq.
  - apply NoDup_filter, record_files_NoDup.
  - intros g [Hs _]%list_elem_of_filter.
    destruct (is_stale_regfile w g Hs) as [c Hc]. eauto.
Qed.

(** When [status_server] returns, it returns the entries of the live
    records, and the stale record files have been unlinked. *)
Lemma status_server_ret directory w l w' :
  status_server directory w = (Ret l, w') →
  l = omap (live_entry (write_tested w)) (record_files (write_tested w))
  ∧ ∃ m, w' = log (EvPrint Stdout m)
                (unlinked_all (stale_files_of (write_tested w))
                   (write_tested w)).
Proof.
  unfold status_server. rewrite bind_eq. simpl.
  rewrite bind_eq, get_pid_directory_eq. cbv beta iota. rewrite bind_eq.
  generalize (write_tested w). intros wt.
  change (glob_pid_files wt) with (Ret (record_files wt), wt).
  unfold stale_files_of.
  destruct (record_files wt) as [|g rest] eqn:Hrec.
  { intros [= <- <-]. split; [done|]. eauto. }
  rewrite <- Hrec. rewrite bind_eq, status_loop_eq.
  destruct (classify wt (record_files wt) [] []) as [[rv sf]|e] eqn:Hc;
    [|discriminate].
  apply classify_ret in Hc as [-> ->]. simpl.
  rewrite bind_eq.
  pose proof (unlink_stale_files wt) as Hu. unfold stale_files_of in Hu.
  rewrite Hu.
  destruct (omap (live_entry wt) (record_files wt)) as [|e es].
  - destruct (filter _ (record_files wt));
      intros [= <- <-]; split; eauto.
  - intros [= <- <-]. split; eauto.
Qed.

(** [status_server] returns as soon as every record file can be read and
    holds a text that is malformed or a PID that [os.kill] accepts. *)
Lemma status_server_total directory w :
  Forall (λ g, ∃ x, status_step (write_tested w) g = Ret x)
    (record_files (write_tested w)) →
  ∃ l w', status_server directory w = (Ret l, w').
Proof.
  unfold status_server. rewrite bind_eq. simpl.
  rewrite bind_eq, get_pid_directory_eq. cbv beta iota. rewrite bind_eq.
  generalize (write_tested w). intros wt Hready.
  change (glob_pid_files wt) with (Ret (record_files wt), wt).
  destruct (record_files wt) as [|g rest] eqn:Hrec.
  { eauto. }
  rewrite <- Hrec in *. rewrite bind_eq, status_loop_eq.
  destruct (classify_total wt (record_files wt) [] [] Hready)
    as (rv & sf & Hc).
  rewrite Hc. destruct (classify_ret _ _ _ _ _ _ Hc) as [-> ->]. simpl.
  rewrite bind_eq.
  pose proof (unlink_stale_files wt) as Hu. unfold stale_files_of in Hu.
  rewrite Hu.
  destruct (omap (live_entry wt) (record_files wt)) as [|e es].
  - destruct (filter _ (record_files wt)); eauto.
  - eauto.
Qed.

(** ** [str] and back *)

Lemma digit_char_spec d :
  0 <= d < 10 →
  PyText.is_digit (PyText.digit_char d) = true
  ∧ PyText.digit_val (PyText.digit_char d) = d
  ∧ PyText.is_space (PyText.digit_char d) = false
  ∧ Ascii.eqb (PyText.digit_char d) "." = false.
Proof.
  intros H.
  assert (Hd : d = 0 ∨ d = 1 ∨ d = 2 ∨ d = 3 ∨ d = 4 ∨ d = 5 ∨ d = 6
               ∨ d = 7 ∨ d = 8 ∨ d = 9) by lia.
  repeat destruct Hd as [->|Hd]; try subst d; vm_compute; auto.
Qed.

Lemma dec_value_acc_split a s :
  dec_value_acc a s = a * 10 ^ Z.of_nat (String.length s) + dec_value s.
Proof.
  unfold dec_value. revert a. induction s as [|c r IH]; intros a.
  - simpl. lia.
  - cbn [dec_value_acc String.length]. rewrite IH.
    rewrite (IH (10 * 0 + PyText.digit_val c)).
    rewrite Nat2Z.inj_succ, Z.pow_succ_r by lia. ring.
Qed.

Lemma dec_digits_spec fuel :
  ∀ n acc,
    0 <= n < 2 ^ Z.of_nat fuel → all_digits acc = true →
    all_digits (PyText.dec_digits fuel n acc) = true
    ∧ dec_value (PyText.dec_digits fuel n acc)
      = n * 10 ^ Z.of_nat (String.length acc) + dec_value acc
    ∧ (String.length (PyText.dec_digits fuel n acc)
       ≤ fuel + String.length acc)%nat.
Proof.
  induction fuel as [|fuel IH]; intros n acc Hn Hacc.
  - simpl in *. assert (n = 0) as -> by lia. repeat split; auto; lia.
  - rewrite Nat2Z.inj_succ, Z.pow_succ_r in Hn by lia.
    assert (Hmod : 0 <= n mod 10 < 10) by (apply Z.mod_pos_bound; lia).
    destruct (digit_char_spec _ Hmod) as (Hd & Hv & _).
    set (acc' := String (PyText.digit_char (n mod 10)) acc).
    assert (Hacc' : all_digits acc' = true).
    { change (PyText.is_digit (PyText.digit_char (n mod 10))
              && all_digits acc = true). by rewrite Hd, Hacc. }
    assert (Hval : dec_value acc'
                   = n mod 10 * 10 ^ Z.of_nat (String.length acc)
                     + dec_value acc).
    { unfold dec_value, acc'. cbn [dec_value_acc].
      rewrite dec_value_acc_split, Hv. unfold dec_value. lia. }
    cbn [PyText.dec_digits]. fold acc'.
    destruct (n / 10 =? 0) eqn:Hq.
    + apply Z.eqb_eq in Hq.
      assert (n = n mod 10) as Hsmall.
      { pose proof (Z.div_mod n 10). lia. }
      split; [done|]. split; [rewrite Hval; congruence|].
      change (String.length acc') with (S (String.length acc)). lia.
    + apply Z.eqb_neq in Hq.
      assert (Hdiv : 0 <= n / 10 < 2 ^ Z.of_nat fuel).
      { split; [apply Z.div_pos; lia|].
        apply Z.div_lt_upper_bound; lia. }
      destruct (IH (n / 10) acc' Hdiv Hacc') as (H1 & H2 & H3).
      split; [done|]. split.
      * rewrite H2, Hval. unfold acc'. cbn [String.length].
        rewrite Nat2Z.inj_succ, Z.pow_succ_r by lia.
        pose proof (Z.div_mod n 10). nia.
      * change (String.length acc') with (S (String.length acc)) in H3. lia.
Qed.

Lemma dec_digits_nonempty fuel n acc :
  PyText.dec_digits (S fuel) n acc ≠ "".
Proof.
  revert n acc. induction fuel as [|fuel IH]; intros n acc.
  - simpl. by destruct (n / 10 =? 0).
  - cbn [PyText.dec_digits]. destruct (n / 10 =? 0); [done|]. apply IH.
Qed.

Lemma digits_fuel_bound z :
  0 <= z → z < 2 ^ Z.of_nat (PyText.digits_fuel z).
Proof.
  intros Hz. unfold PyText.digits_fuel.
  rewrite Nat2Z.inj_succ, Z2Nat.id by apply Z.log2_nonneg.
  destruct (decide (z = 0)) as [->|Hne]; [done|].
  apply Z.log2_spec. lia.
Qed.

(** The text of a non-negative integer: non-empty, made of digits, and of
    that value. *)
Lemma str_nonneg_spec z :
  0 <= z →
  all_digits (PyText.str z) = true
  ∧ PyText.str z ≠ ""
  ∧ dec_value (PyText.str z) = z
  ∧ (String.length (PyText.str z) ≤ PyText.digits_fuel z)%nat.
Proof.
  intros Hz. unfold PyText.str.
  replace (z <? 0) with false by lia.
  destruct (dec_digits_spec (PyText.digits_fuel z) z "") as (H1 & H2 & H3).
  { split; [done|]. by apply digits_fuel_bound. }
  { done. }
  split; [done|]. split; [apply dec_digits_nonempty|].
  change (String.length "") with 0%nat in *.
  change (dec_value "") with 0 in H2.
  split; [rewrite H2; change (Z.of_nat 0) with 0; rewrite Z.pow_0_r; lia|].
  lia.
Qed.

Lemma all_digits_rstrip s : all_digits s = true → PyText.rstrip s = s.
Proof.
  induction s as [|c r IH]; [done|]. simpl.
  intros [Hc Hr]%andb_true_iff. rewrite (IH Hr).
  destruct r; [|done].
  replace (PyText.is_space c) with false; [done|].
  unfold PyText.is_digit, PyText.is_space in *.
  apply andb_true_iff in Hc as [H1 H2].
  apply Nat.leb_le in H1, H2. symmetry.
  apply orb_false_iff. split; apply andb_false_iff.
  - right. apply Nat.leb_gt. lia.
  - right. apply Nat.leb_gt. lia.
Qed.

Lemma digit_not_space c : PyText.is_digit c = true → PyText.is_space c = false.
Proof.
  unfold PyText.is_digit, PyText.is_space.
  intros [H1 H2]%andb_true_iff. apply Nat.leb_le in H1, H2.
  apply orb_false_iff. split; apply andb_false_iff; right;
    apply Nat.leb_gt; lia.
Qed.

Lemma all_digits_strip s : all_digits s = true → PyText.strip s = s.
Proof.
  intros H. unfold PyText.strip.
  assert (Hl : PyText.lstrip s = s).
  { destruct s as [|c r]; [done|]. simpl in *.
    apply andb_true_iff in H as [Hc _].
    by rewrite (digit_not_space c Hc). }
  rewrite Hl. by apply all_digits_rstrip.
Qed.

(** Writing a PID and reading it back gives the PID. *)
Lemma int_str_roundtrip z :
  0 <= z < 2 ^ 31 → PyText.int (PyText.strip (PyText.str z)) = Ret z.
Proof.
  intros Hz. destruct (str_nonneg_spec z) as (Hd & Hne & Hv & Hlen); [lia|].
  rewrite (all_digits_strip _ Hd).
  apply int_literal_iff. rewrite (all_digits_strip _ Hd).
  right. right. exists (PyText.str z), []. simpl.
  rewrite string_app_nil_r.
  split; [done|]. split; [done|]. split; [done|]. split; [|done].
  unfold PyText.int_max_str_digits.
  assert (Z.log2 z <= 31).
  { destruct (decide (z = 0)) as [->|?]; [done|].
    assert (Z.log2 z < 31); [|lia]. apply Z.log2_lt_pow2; lia. }
  unfold PyText.digits_fuel in Hlen. lia.
Qed.

(** ** [launch_server] *)

Lemma check_existing_eq pid_file actual_port w :
  check_existing pid_file actual_port w
  = check_outcome pid_file actual_port w.
Proof.
  unfold check_existing, check_outcome.
  rewrite bind_eq. unfold path_exists at 1.
  destruct (files w !! pid_file) as [nd|] eqn:Hf.
  2: { rewrite bool_decide_eq_false_2 by (intros [? ?]; congruence).
       reflexivity. }
  rewrite bool_decide_eq_true_2 by eauto.
  rewrite try_catch_eq, bind_eq. unfold read_text at 1. rewrite Hf.
  destruct nd as [[] content|].
  - rewrite bind_eq. unfold lift_result at 1.
    destruct (PyText.int (PyText.strip content)) as [pid|e] eqn:Hint.
    + rewrite bind_eq, is_process_running_eq.
      destruct (in_pid_t pid); [|reflexivity].
      destruct (running w pid); [reflexivity|].
      rewrite bind_eq. unfold unlink at 1. rewrite Hf. reflexivity.
    + apply int_raise in Hint as ->. simpl.
      rewrite bind_eq. unfold unlink at 1. rewrite Hf. reflexivity.
  - simpl. rewrite bind_eq. unfold unlink at 1. rewrite Hf. reflexivity.
  - simpl. rewrite bind_eq. unfold unlink at 1. rewrite Hf. reflexivity.
Qed.

(** After the check the path of the record is free, unless the launch is
    abandoned or the check raised. *)
Lemma check_outcome_free pid_file actual_port w w1 :
  check_outcome pid_file actual_port w = (Ret false, w1) →
  files w1 !! pid_file = None
  ∧ (∀ g, g ≠ pid_file → files w1 !! g = files w !! g)
  ∧ procs w1 = procs w ∧ spawns w1 = spawns w
  ∧ browser_opener w1 = browser_opener w ∧ cwd w1 = cwd w
  ∧ ports_taken w1 = ports_taken w.
Proof.
  assert (Hunl : files (unlinked pid_file w) !! pid_file = None
    ∧ (∀ g, g ≠ pid_file → files (unlinked pid_file w) !! g = files w !! g)
    ∧ procs (unlinked pid_file w) = procs w
    ∧ spawns (unlinked pid_file w) = spawns w
    ∧ browser_opener (unlinked pid_file w) = browser_opener w
    ∧ cwd (unlinked pid_file w) = cwd w
    ∧ ports_taken (unlinked pid_file w) = ports_taken w).
  { simpl. split; [apply lookup_delete_eq|].
    split; [intros g Hg; by apply lookup_delete_ne|]. done. }
  unfold check_outcome.
  destruct (files w !! pid_file) as [[[] content|]|] eqn:Hf.
  - destruct (PyText.int (PyText.strip content)) as [pid|e].
    + destruct (in_pid_t pid); [|discriminate].
      destruct (running w pid); [discriminate|].
      by intros [= <-].
    + by intros [= <-].
  - by intros [= <-].
  - discriminate.
  - intros [= <-]. done.
Qed.

Lemma ret_bind {S A B} (a : A) (f : A → St S B) (s : S) :
  (mret a ≫= f) s = f a s.
Proof. reflexivity. Qed.

Lemma print_run m w : print m w = (Ret tt, log (EvPrint Stdout m) w).
Proof. reflexivity. Qed.

Lemma print_err_run m w : print_err m w = (Ret tt, log (EvPrint Stderr m) w).
Proof. reflexivity. Qed.

Lemma sleep_run ms w : sleep ms w = (Ret tt, log (EvSleep ms) w).
Proof. reflexivity. Qed.

Lemma write_text_absent name content w :
  files w !! name = None →
  write_text name content w
  = (Ret tt,
     log (EvWrite name content)
       (set_files (<[name := RegFile true content]> (files w)) w)).
Proof. intros H. unfold write_text. by rewrite H. Qed.

Lemma unlink_regfile name a content w :
  files w !! name = Some (RegFile a content) →
  unlink name w = (Ret tt, unlinked name w).
Proof. intros H. unfold unlink. by rewrite H. Qed.

Lemma path_exists_absent name w :
  files w !! name = None → path_exists name w = (Ret false, w).
Proof.
  intros H. unfold path_exists. rewrite H.
  by rewrite bool_decide_eq_false_2 by (intros [? ?]; congruence).
Qed.

Lemma path_exists_present name nd w :
  files w !! name = Some nd → path_exists name w = (Ret true, w).
Proof.
  intros H. unfold path_exists. rewrite H.
  by rewrite bool_decide_eq_true_2 by eauto.
Qed.

(** The handler of [except Exception] in the background launch. *)
Lemma background_handler_absent pid_file e w :
  files w !! pid_file = None →
  (print_err (MsgErrorStarting e);;
   ex ← path_exists pid_file;
   (if ex : bool then unlink pid_file else mret tt);;
   mret (None : option (Z * option Z))) w
  = (Ret None, log (EvPrint Stderr (MsgErrorStarting e)) w).
Proof.
  intros H. rewrite bind_eq, print_err_run. rewrite bind_eq.
  rewrite path_exists_absent by done. reflexivity.
Qed.

Lemma background_handler_present pid_file e a content w :
  files w !! pid_file = Some (RegFile a content) →
  (print_err (MsgErrorStarting e);;
   ex ← path_exists pid_file;
   (if ex : bool then unlink pid_file else mret tt);;
   mret (None : option (Z * option Z))) w
  = (Ret None,
     unlinked pid_file (log (EvPrint Stderr (MsgErrorStarting e)) w)).
Proof.
  intros H. rewrite bind_eq, print_err_run. rewrite bind_eq.
  rewrite (path_exists_present _ (RegFile a content)) by done.
  rewrite bind_eq.
  rewrite (unlink_regfile _ a content) by done. reflexivity.
Qed.

Lemma launch_background_eq cmd serve_dir pid_file actual_port no_browser w :
  files w !! pid_file = None →
  launch_background cmd serve_dir pid_file actual_port no_browser w
  = background_outcome cmd serve_dir pid_file actual_port no_browser w.
Proof.
  intros Hf. unfold launch_background, background_outcome.
  rewrite bind_eq, print_run.
  set (w0 := log (EvPrint Stdout (MsgStartingBackground serve_dir actual_port)) w).
  assert (Hf0 : files w0 !! pid_file = None) by exact Hf.
  rewrite try_catch_eq, bind_eq. unfold popen at 1.
  change (spawns w0) with (spawns w).
  destruct (spawns w) as [|[e|pid fate err] rest].
  - change (is_Exception (OSError EAGAIN)) with true. cbv iota.
    by apply background_handler_absent.
  - destruct (is_Exception e); [|reflexivity].
    by apply background_handler_absent.
  - set (w1 := log (EvSpawn cmd pid false)
                 (set_procs (<[pid:=child_proc cmd pid fate]> (procs w0))
                    (set_spawns rest w0))).
    assert (Hf1 : files w1 !! pid_file = None) by exact Hf.
    cbv beta iota. cbn [process_pid process_fate process_stderr].
    rewrite bind_eq, (write_text_absent _ _ _ Hf1).
    set (w2 := log (EvWrite pid_file (PyText.str pid))
                 (set_files
                    (<[pid_file:=RegFile true (PyText.str pid)]> (files w1))
                    w1)).
    assert (Hf2 : files w2 !! pid_file
                  = Some (RegFile true (PyText.str pid)))
      by apply lookup_insert_eq.
    rewrite bind_eq, print_run, bind_eq, sleep_run, bind_eq.
    unfold poll at 1. cbn [process_pid process_fate process_stderr].
    destruct fate as [code|bp ot].
    + cbv beta iota. rewrite bind_eq, print_err_run.
      destruct (String.eqb err "") eqn:Herr.
      * rewrite ret_bind, bind_eq.
        rewrite (unlink_regfile _ true (PyText.str pid)) by exact Hf2.
        reflexivity.
      * rewrite bind_eq, print_err_run. rewrite bind_eq.
        rewrite (unlink_regfile _ true (PyText.str pid)) by exact Hf2.
        reflexivity.
    + cbv beta iota. destruct no_browser.
      * reflexivity.
      * cbn [negb]. rewrite bind_eq, bind_eq, print_run.
        unfold open_browser at 1.
        change (browser_opener
                  (log (EvPrint Stdout MsgOpeningBrowser)
                     (log (EvPoll pid None)
                        (log (EvSleep 2000)
                           (log (EvPrint Stdout (MsgPidSaved pid pid_file))
                              w2)))))
          with (browser_opener w).
        destruct (browser_opener w).
        -- reflexivity.
        -- change (is_Exception (OSError ENOENT)) with true. cbv iota.
           by apply (background_handler_present _ _ true (PyText.str pid)).
Qed.

Lemma launch_foreground_world cmd serve_dir actual_port w r w' :
  launch_foreground cmd serve_dir actual_port w = (r, w') →
  files w' = files w ∧ procs w' = procs w
  ∧ match r with
    | Ret (Some (p, pid)) => p = actual_port ∧ pid = None
    | _ => True
    end.
Proof.
  unfold launch_foreground. prims_unfold. simpl.
  destruct (spawns w) as [|[e|pid [code|bp ot] err] rest]; simpl.
  - intros [= <- <-]. auto.
  - destruct e; simpl; intros [= <- <-]; auto.
  - destruct (code =? 0); simpl; intros [= <- <-]; auto.
  - intros [= <- <-]. auto.
Qed.

Lemma launch_server_eq directory port host foreground remote no_browser w :
  launch_server directory port host foreground remote no_browser w
  = match find_available_port port 100 w with
    | (Raise e, _) => (Raise e, w)
    | (Ret None, _) => (Ret None, log (EvPrint Stderr (MsgNoPorts port)) w)
    | (Ret (Some actual_port), _) =>
        match check_outcome (pid_file_name actual_port) actual_port
                (write_tested (port_reported port actual_port w)) with
        | (Raise e, w1) => (Raise e, w1)
        | (Ret true, w1) => (Ret None, w1)
        | (Ret false, w1) =>
            let cmd := launch_cmd directory host remote actual_port w in
            if foreground
            then launch_foreground cmd (serve_dir_of directory w)
                   actual_port w1
            else launch_background cmd (serve_dir_of directory w)
                   (pid_file_name actual_port) actual_port no_browser w1
        end
    end.
Proof.
  unfold launch_server. rewrite bind_eq.
  change (resolve_serve_dir directory w)
    with (Ret (serve_dir_of directory w), w).
  cbv iota beta. rewrite bind_eq.
  destruct (find_available_port port 100 w) as [[[actual|]|e] w0] eqn:Hfind;
    apply find_available_port_world in Hfind as ->; try reflexivity.
  rewrite bind_eq.
  assert (Hrep : (if negb (actual =? port)
                  then print (MsgPortInUse port actual) else mret ()) w
                 = (Ret tt, port_reported port actual w)).
  { unfold port_reported. destruct (negb (actual =? port)); reflexivity. }
  rewrite Hrep. rewrite bind_eq, get_pid_directory_eq.
  cbv iota beta. rewrite bind_eq, check_existing_eq.
  destruct (check_outcome (pid_file_name actual) actual
              (write_tested (port_reported port actual w))) as [[[]|e] w1];
    try reflexivity.
  cbv zeta. by destruct foreground.
Qed.

(** ** Record file names *)

Lemma string_app_assoc (a b c : string) : (a ++ b) ++ c = a ++ (b ++ c).
Proof.
  induction a as [|x a IH]; [reflexivity|].
  change (String x ((a ++ b) ++ c) = String x (a ++ (b ++ c))).
  by rewrite IH.
Qed.

Lemma substring_prefix (a b : string) :
  substring 0 (String.length a) (a ++ b) = a.
Proof.
  induction a as [|x a IH]; simpl.
  - by destruct b.
  - change (String x a ++ b) with (String x (a ++ b)). by rewrite IH.
Qed.

Lemma substring_skip (a b : string) n :
  substring (String.length a) n (a ++ b) = substring 0 n b.
Proof.
  induction a as [|x a IH]; [reflexivity|].
  change (String x a ++ b) with (String x (a ++ b)). simpl. exact IH.
Qed.

Lemma stem_pid_suffix (a : string) : stem (a ++ ".pid") = a.
Proof.
  unfold stem. rewrite string_length_app. simpl.
  replace (String.length a + 4 - 4)%nat with (String.length a) by lia.
  apply substring_prefix.
Qed.

Lemma ends_with_pid_suffix (a : string) : ends_with ".pid" (a ++ ".pid") = true.
Proof.
  unfold ends_with. rewrite string_length_app.
  change (String.length ".pid") with 4%nat.
  apply andb_true_iff. split; [apply Nat.leb_le; lia|].
  replace (String.length a + 4 - 4)%nat with (String.length a) by lia.
  rewrite substring_skip. reflexivity.
Qed.

Lemma all_digits_no_dot s : all_digits s = true → has_dot s = false.
Proof.
  induction s as [|c r IH]; [done|]. simpl.
  intros [Hc Hr]%andb_true_iff. rewrite (IH Hr).
  destruct (Ascii.eqb c ".") eqn:E; [|done].
  apply Ascii.eqb_eq in E as ->. discriminate.
Qed.

Lemma pid_file_name_app port :
  pid_file_name port = ("fileserver." ++ PyText.str port) ++ ".pid".
Proof. unfold pid_file_name. by rewrite string_app_assoc. Qed.

Lemma last_field_fileserver s :
  has_dot s = false → last_field ("fileserver." ++ s) = s.
Proof.
  intros H.
  change ("fileserver." ++ s)
    with (String "f" (String "i" (String "l" (String "e" (String "s"
           (String "e" (String "r" (String "v" (String "e" (String "r"
             (String "." s))))))))))).
  simpl. by rewrite H.
Qed.

Lemma port_of_pid_file_name port :
  0 <= port → port_of (pid_file_name port) = PyText.str port.
Proof.
  intros Hp. unfold port_of. rewrite pid_file_name_app, stem_pid_suffix.
  apply last_field_fileserver, all_digits_no_dot.
  by apply str_nonneg_spec.
Qed.

Lemma matches_pid_file_name port :
  0 <= port → matches_pid_glob (pid_file_name port) = true.
Proof.
  intros Hp. unfold matches_pid_glob.
  destruct (str_nonneg_spec port Hp) as (_ & Hne & _).
  apply andb_true_iff. split; [apply andb_true_iff; split|].
  - unfold pid_file_name.
    change ("fileserver." ++ PyText.str port ++ ".pid")
      with (String "f" (String "i" (String "l" (String "e" (String "s"
             (String "e" (String "r" (String "v" (String "e" (String "r"
               (String "." (PyText.str port ++ ".pid")))))))))))).
    simpl. by destruct (PyText.str port ++ ".pid").
  - rewrite pid_file_name_app. apply ends_with_pid_suffix.
  - apply Nat.leb_le. rewrite pid_file_name_app, !string_length_app. simpl.
    destruct (PyText.str port); [done|]. simpl. lia.
Qed.

(** ** Further properties of [status_server] and of the probe *)

Lemma classify_raise w pid_files rv sf e :
  classify w pid_files rv sf = Raise e →
  ∃ g, g ∈ pid_files ∧ status_step w g = Raise e.
Proof.
  revert rv sf. induction pid_files as [|g l IH]; intros rv sf H; simpl in H.
  - discriminate.
  - destruct (status_step w g) as [[entry|]|e'] eqn:Hs.
    + destruct (IH _ _ H) as (g' & Hin & Hg'). exists g'. split; [by right|done].
    + destruct (IH _ _ H) as (g' & Hin & Hg'). exists g'. split; [by right|done].
    + injection H as ->. exists g. split; [left|done].
Qed.

Lemma running_same w1 w2 pid :
  procs w1 = procs w2 → own_pid w1 = own_pid w2 → own_pgid w1 = own_pgid w2 →
  running w1 pid = running w2 pid.
Proof.
  intros H1 H2 H3. unfold running, targets_caller, in_target.
  by rewrite H1, H2, H3.
Qed.

Lemma running_write_tested w pid : running (write_tested w) pid = running w pid.
Proof.
  apply running_same;
    auto using write_tested_procs, write_tested_own_pid, write_tested_own_pgid.
Qed.

Lemma status_step_write_tested w g :
  g ≠ ".write_test" → status_step (write_tested w) g = status_step w g.
Proof.
  intros Hne. unfold status_step.
  rewrite write_tested_files by done.
  destruct (files w !! g) as [[[] content|]|]; try reflexivity.
  destruct (PyText.int (PyText.strip content)); [|reflexivity].
  by rewrite running_write_tested.
Qed.

Lemma record_not_write_test g : matches_pid_glob g = true → g ≠ ".write_test".
Proof. intros Hm ->. discriminate. Qed.

Lemma elem_of_record_files_write_tested w g :
  g ∈ record_files (write_tested w) ↔ g ∈ record_files w.
Proof.
  rewrite !elem_of_record_files. split; intros [Hm Hs]; (split; [done|]).
  - by rewrite <- (write_tested_record w g).
  - by rewrite write_tested_record.
Qed.

Lemma omap_ext_in {A B} (f f' : A → option B) (l : list A) :
  (∀ x, x ∈ l → f x = f' x) → omap f l = omap f' l.
Proof.
  induction l as [|x l IH]; intros H; [reflexivity|].
  csimpl. rewrite (H x) by left. rewrite IH; [done|].
  intros y Hy. apply H. by right.
Qed.

(** X1. Let the readable record files hold ASCII text. When
    [status_server] returns, its result lists, in the order in which the
    directory is enumerated after the write test, the PID and port text of
    exactly the record files whose text parses to a PID that the probe
    finds running; every record file found stale (malformed text or PID
    not running) has been unlinked; a regular file [.write_test] has been
    removed by the write test; every other file is as before, and no
    process was touched. *)
Theorem status_server_reports_live_reaps_stale (directory : option string)
    (w : world) (l : list (Z * string)) (w' : world) :
  ascii_records w = true →
  status_server directory w = (Ret l, w') →
  l = omap (live_entry w) (record_files (write_tested w))
  ∧ (∀ g, g ∈ record_files w → is_stale w g = true → files w' !! g = None)
  ∧ (∀ g, g ≠ ".write_test" →
          ¬ (g ∈ record_files w ∧ is_stale w g = true) →
          files w' !! g = files w !! g)
  ∧ files w' !! ".write_test"
    = match files w !! ".write_test" with
      | Some (RegFile _ _) => None
      | other => other
      end
  ∧ procs w' = procs w.
Proof.
  intros _ H. apply status_server_ret in H as [-> [m ->]].
  assert (Hstale : ∀ g, g ∈ stale_files_of (write_tested w)
                        ↔ g ∈ record_files w ∧ is_stale w g = true).
  { intros g. unfold stale_files_of. rewrite list_elem_of_filter.
    rewrite elem_of_record_files_write_tested. unfold is_stale.
    split.
    - intros [Hs Hin]. pose proof Hin as [Hm _]%elem_of_record_files.
      split; [done|].
      by rewrite <- (status_step_write_tested w g (record_not_write_test g Hm)).
    - intros [Hin Hs]. pose proof Hin as [Hm _]%elem_of_record_files.
      split; [|done].
      by rewrite (status_step_write_tested w g (record_not_write_test g Hm)). }
  split; [|split; [|split; [|split]]].
  - apply omap_ext_in. intros g [Hm _]%elem_of_record_files.
    unfold live_entry.
    by rewrite (status_step_write_tested w g (record_not_write_test g Hm)).
  - intros g Hin Hs. cbn [files log]. rewrite unlinked_all_files.
    rewrite bool_decide_eq_true_2; [done|]. by apply Hstale.
  - intros g Hne Hno. cbn [files log]. rewrite unlinked_all_files.
    rewrite bool_decide_eq_false_2; [by apply write_tested_files|].
    intros ?%Hstale. by apply Hno.
  - cbn [files log]. rewrite unlinked_all_files.
    rewrite bool_decide_eq_false_2.
    + unfold write_tested.
      destruct (files w !! ".write_test") as [[a content|]|] eqn:Hf;
        [cbn [files set_files]; apply lookup_delete_eq|done..].
    + intros [[Hm _]%elem_of_record_files _]%Hstale. discriminate.
  - cbn [procs log]. rewrite unlinked_all_procs. apply write_tested_procs.
Qed.

Lemma status_server_reports_live_reaps_stale_witness :
  ascii_records mixed_records_world = true
  ∧ status_server None mixed_records_world
    = (Ret [(500, "4444")], (status_server None mixed_records_world).2)
  ∧ [(500, "4444")]
    = omap (live_entry mixed_records_world)
        (record_files (write_tested mixed_records_world))
  ∧ files (status_server None mixed_records_world).2 !! "fileserver.4445.pid"
    = None.
Proof.
  assert (H0 : ascii_records mixed_records_world = true)
    by (vm_compute; reflexivity).
  assert (H : status_server None mixed_records_world
              = (Ret [(500, "4444")],
                 (status_server None mixed_records_world).2)).
  { vm_compute. reflexivity. }
  split; [exact H0|]. split; [exact H|].
  destruct (status_server_reports_live_reaps_stale None mixed_records_world
              [(500, "4444")] (status_server None mixed_records_world).2
              H0 H) as (Hl & Hs & _).
  split; [exact Hl|]. apply Hs; vm_compute; [|reflexivity].
  apply list_elem_of_In. simpl. auto.
Defined.

(** X2. Let the readable record files hold ASCII text. [status_server]
    raises only out of its classification loop, before anything is cleaned
    up: the exception is the one that reading or probing some record file
    gives ([OSError] from an unreadable file, [OverflowError] from a PID
    outside [pid_t]), and the world is left as the write test of
    [get_pid_directory] left it, stale records included. *)
Theorem status_server_raise_changes_nothing (directory : option string)
    (w : world) (e : exn) (w' : world) :
  ascii_records w = true →
  status_server directory w = (Raise e, w') →
  w' = write_tested w
  ∧ (∀ g, g ≠ ".write_test" → files w' !! g = files w !! g)
  ∧ ∃ g, g ∈ record_files w ∧ status_step w g = Raise e.
Proof.
  intros _.
  unfold status_server. rewrite bind_eq. simpl.
  rewrite bind_eq, get_pid_directory_eq. cbv beta iota. rewrite bind_eq.
  change (glob_pid_files (write_tested w))
    with (Ret (record_files (write_tested w)), write_tested w).
  destruct (record_files (write_tested w)) as [|g rest] eqn:Hrec.
  { intros [=]. }
  rewrite <- Hrec. rewrite bind_eq, status_loop_eq.
  destruct (classify (write_tested w) (record_files (write_tested w)) [] [])
    as [[rv sf]|e'] eqn:Hc.
  - apply classify_ret in Hc as [-> ->]. simpl. rewrite bind_eq.
    pose proof (unlink_stale_files (write_tested w)) as Hu.
    unfold stale_files_of in Hu. rewrite Hu.
    destruct (omap (live_entry (write_tested w))
                (record_files (write_tested w))) as [|x xs].
    + destruct (filter _ (record_files (write_tested w))); intros [=].
    + intros [=].
  - intros [= <- <-]. split; [done|].
    split; [intros g' Hne; by apply write_tested_files|].
    apply classify_raise in Hc as (g' & Hin & Hst). exists g'.
    pose proof Hin as [Hm _]%elem_of_record_files.
    split; [by apply elem_of_record_files_write_tested|].
    by rewrite <- (status_step_write_tested w g' (record_not_write_test g' Hm)).
Qed.

Lemma status_server_raise_changes_nothing_witness :
  ascii_records stale_and_unreadable_world = true
  ∧ is_stale stale_and_unreadable_world "fileserver.4444.pid" = true
  ∧ (status_server None stale_and_unreadable_world).1
    = Raise (OSError EACCES)
  ∧ files (status_server None stale_and_unreadable_world).2
      !! "fileserver.4444.pid"
    = Some (RegFile true "777")
  ∧ files (status_server None stale_and_unreadable_world).2 !! ".write_test"
    = None.
Proof.
  assert (H0 : ascii_records stale_and_unreadable_world = true)
    by (vm_compute; reflexivity).
  assert (H : status_server None stale_and_unreadable_world
              = (Raise (OSError EACCES),
                 (status_server None stale_and_unreadable_world).2)).
  { vm_compute. reflexivity. }
  split; [exact H0|]. split; [vm_compute; reflexivity|].
  split; [by rewrite H|].
  destruct (status_server_raise_changes_nothing None
              stale_and_unreadable_world (OSError EACCES)
              (status_server None stale_and_unreadable_world).2 H0 H)
    as (Hw & Hfiles & _).
  split.
  - by rewrite Hfiles.
  - rewrite Hw. vm_compute. reflexivity.
Defined.

Lemma existsb_map_to_list {V} (f : Z * V → bool) (m : gmap Z V) :
  existsb f (map_to_list m) = true
  ↔ ∃ k v, m !! k = Some v ∧ f (k, v) = true.
Proof.
  rewrite existsb_exists. split.
  - intros [[k v] [Hin Hf]]. exists k, v. split; [|done].
    by apply elem_of_map_to_list, list_elem_of_In.
  - intros (k & v & Hm & Hf). exists (k, v). split; [|done].
    by apply list_elem_of_In, elem_of_map_to_list.
Qed.

(** X3. The liveness probe never changes the world, and for a PID outside
    [pid_t] it does not answer but raises [OverflowError], which its
    [except OSError] does not catch. Otherwise it answers. For a positive
    PID other than the caller's it answers [True] exactly when the process
    is in the process table and the caller may signal it: absence and
    permission denied both count as not running. For the caller's own PID
    and for 0, which names the process group of the caller, it answers
    [True] whatever the table holds. For a negative PID below -1 it
    answers [True] exactly when the process group of that number is the
    caller's or holds a process that the caller may signal. *)
Theorem is_process_running_answers (pid : Z) (w : world) :
  ∃ r,
    is_process_running pid w = (r, w)
    ∧ (in_pid_t pid = false → r = Raise OverflowError)
    ∧ (in_pid_t pid = true →
       ∃ b, r = Ret b
         ∧ (0 < pid → pid ≠ own_pid w →
            (b = true ↔ ∃ p, procs w !! pid = Some p ∧ signalable p = true))
         ∧ (0 < pid → pid = own_pid w → b = true)
         ∧ (pid = 0 → b = true)
         ∧ (pid < -1 →
            (b = true
             ↔ - pid = own_pgid w
               ∨ ∃ k p, procs w !! k = Some p ∧ pgid p = - pid
                        ∧ signalable p = true))).
Proof.
  rewrite is_process_running_eq.
  destruct (in_pid_t pid); eexists; (split; [reflexivity|]);
    (split; [done|]); [|done].
  intros _. exists (running w pid). split; [done|].
  split; [|split; [|split]].
  - intros H1 H2. rewrite running_other by done.
    destruct (procs w !! pid) as [p|]; [|split; [done|intros (? & [=] & _)]].
    split; [eauto|]. by intros (p' & [= <-] & ?).
  - intros H1 ->. unfold running, targets_caller.
    rewrite Z.eqb_refl, orb_true_r.
    replace (0 <? own_pid w) with true by (symmetry; by apply Z.ltb_lt).
    reflexivity.
  - intros ->. reflexivity.
  - intros Hneg. unfold running, targets_caller, in_target.
    replace (pid <=? 0) with true by (symmetry; apply Z.leb_le; lia).
    replace (0 <? pid) with false by (symmetry; apply Z.ltb_ge; lia).
    replace (pid =? 0) with false by (symmetry; apply Z.eqb_neq; lia).
    replace (pid =? -1) with false by (symmetry; apply Z.eqb_neq; lia).
    cbn [orb]. rewrite orb_true_iff, andb_true_iff, Z.eqb_eq.
    rewrite !existsb_map_to_list. cbn [fst snd].
    split.
    + intros [?|[_ (k & p & Hp & [Hg Hs]%andb_true_iff)]]; [by left|].
      right. exists k, p. by rewrite <- Z.eqb_eq.
    + intros [?|(k & p & Hp & Hg & Hs)]; [by left|]. right.
      apply Z.eqb_eq in Hg.
      split; exists k, p; (split; [done|]); by rewrite ?Hg, ?Hs.
Qed.

(** ** Helper facts about a launch *)

Lemma find_port_loop_some ports w p w' :
  find_port_loop ports w = (Ret (Some p), w') →
  p ∈ ports ∧ bind_ok w p = true.
Proof.
  induction ports as [|q ports IH]; simpl; [discriminate|].
  rewrite try_catch_eq, bind_eq. unfold socket_bind, bind_ok.
  destruct ((q <? 0) || (65535 <? q)) eqn:Hr; [discriminate|].
  destruct (port_busy q w) eqn:Hb; simpl.
  - intros H. destruct (IH H) as [Hin Hok]. split; [by right|done].
  - intros [= <- <-]. split; [left|]. by rewrite Hr, Hb.
Qed.

Lemma find_available_port_some start n w p w' :
  find_available_port start n w = (Ret (Some p), w') →
  start <= p < start + n ∧ 0 <= p <= 65535 ∧ port_busy p w = false.
Proof.
  intros H. apply find_port_loop_some in H as [Hin Hok].
  apply elem_of_range in Hin. split; [done|].
  unfold bind_ok in Hok. apply andb_true_iff in Hok as [H1 H2].
  apply negb_true_iff in H1, H2. split; [lia|done].
Qed.

Lemma port_reported_files port actual w :
  files (port_reported port actual w) = files w.
Proof. unfold port_reported. by destruct (negb (actual =? port)). Qed.

Lemma port_reported_procs port actual w :
  procs (port_reported port actual w) = procs w.
Proof. unfold port_reported. by destruct (negb (actual =? port)). Qed.

Lemma port_reported_spawns port actual w :
  spawns (port_reported port actual w) = spawns w.
Proof. unfold port_reported. by destruct (negb (actual =? port)). Qed.

Lemma port_reported_browser port actual w :
  browser_opener (port_reported port actual w) = browser_opener w.
Proof. unfold port_reported. by destruct (negb (actual =? port)). Qed.

Lemma port_reported_own_pid port actual w :
  own_pid (port_reported port actual w) = own_pid w.
Proof. unfold port_reported. by destruct (negb (actual =? port)). Qed.

Lemma port_reported_own_pgid port actual w :
  own_pgid (port_reported port actual w) = own_pgid w.
Proof. unfold port_reported. by destruct (negb (actual =? port)). Qed.

Lemma port_reported_trace port actual w :
  trace (write_tested (port_reported port actual w))
  = trace (port_reported port actual w).
Proof. apply write_tested_trace. Qed.

(** The probe in the world in which a launch looks up the record. *)
Lemma running_launch_world port actual w pid :
  running (write_tested (port_reported port actual w)) pid = running w pid.
Proof.
  rewrite running_write_tested.
  apply running_same;
    auto using port_reported_procs, port_reported_own_pid,
      port_reported_own_pgid.
Qed.

Lemma check_outcome_files_sub pid_file actual w r w1 :
  check_outcome pid_file actual w = (r, w1) →
  (∀ g nd, files w1 !! g = Some nd → files w !! g = Some nd)
  ∧ procs w1 = procs w ∧ spawns w1 = spawns w
  ∧ browser_opener w1 = browser_opener w.
Proof.
  assert (Hdel : ∀ g nd, delete pid_file (files w) !! g = Some nd →
                         files w !! g = Some nd).
  { intros g nd. destruct (decide (pid_file = g)) as [->|Hne].
    - by rewrite lookup_delete_eq.
    - by rewrite lookup_delete_ne. }
  unfold check_outcome.
  destruct (files w !! pid_file) as [[[] content|]|].
  - destruct (PyText.int (PyText.strip content)) as [pid|e].
    + destruct (in_pid_t pid); [|intros [= <- <-]; auto].
      destruct (running w pid); intros [= <- <-]; simpl; auto.
    + intros [= <- <-]; simpl; auto.
  - intros [= <- <-]; simpl; auto.
  - intros [= <- <-]; auto.
  - intros [= <- <-]; auto.
Qed.

(** A background launch that does not succeed leaves the files as they
    were before it. *)
Lemma background_outcome_failure cmd sd pid_file actual nb w r w' :
  files w !! pid_file = None →
  background_outcome cmd sd pid_file actual nb w = (r, w') →
  (∀ x, r ≠ Ret (Some x)) →
  files w' = files w.
Proof.
  intros Hf. unfold background_outcome.
  destruct (spawns w) as [|[e|pid fate err] rest].
  - intros [= <- <-] _. reflexivity.
  - destruct (is_Exception e); intros [= <- <-] _; reflexivity.
  - destruct fate as [code|bp ot].
    + destruct (String.eqb err ""); intros [= <- <-] _; simpl;
        by apply delete_insert_id.
    + destruct nb; [intros [= <- <-] H; by destruct (H (actual, Some pid))|].
      destruct (browser_opener w).
      * intros [= <- <-] H. by destruct (H (actual, Some pid)).
      * intros [= <- <-] _. simpl. by apply delete_insert_id.
Qed.

(** What a successful background launch has done. *)
Lemma background_outcome_success cmd sd pid_file actual nb w p opid w' :
  background_outcome cmd sd pid_file actual nb w = (Ret (Some (p, opid)), w') →
  ∃ pid bp ot err rest,
    spawns w = SpawnChild pid (KeepsRunning bp ot) err :: rest
    ∧ opid = Some pid ∧ p = actual
    ∧ files w' = <[pid_file := RegFile true (PyText.str pid)]> (files w)
    ∧ procs w' = <[pid := child_proc cmd pid (KeepsRunning bp ot)]> (procs w)
    ∧ spawns w' = rest.
Proof.
  unfold background_outcome.
  destruct (spawns w) as [|[e|pid fate err] rest].
  - intros [=].
  - destruct (is_Exception e); intros [=].
  - destruct fate as [code|bp ot]; [intros [=]|].
    destruct nb; [intros [= <- <- <-]; by exists pid, bp, ot, err, rest|].
    destruct (browser_opener w); [|intros [=]].
    intros [= <- <- <-]. by exists pid, bp, ot, err, rest.
Qed.

(** What a successful launch has done: the port it returns was free, in
    range and chosen by [find_available_port]; with a PID in the result the
    launch ran in the background, wrote the record of that PID at the
    port's path and left every other file alone; the child is in the
    process table and may be signalled. *)
Lemma launch_server_success directory port host foreground remote no_browser
    w p pid w1 :
  launch_server directory port host foreground remote no_browser w
  = (Ret (Some (p, Some pid)), w1) →
  find_available_port port 100 w = (Ret (Some p), w)
  ∧ foreground = false
  ∧ files w1 !! pid_file_name p = Some (RegFile true (PyText.str pid))
  ∧ (∀ g, g ≠ pid_file_name p → g ≠ ".write_test" →
          files w1 !! g = files w !! g)
  ∧ ∃ pr, procs w1 !! pid = Some pr ∧ signalable pr = true.
Proof.
  rewrite launch_server_eq.
  destruct (find_available_port port 100 w) as [[[actual|]|e] w0] eqn:Hfind;
    [| intros [=] | intros [=]].
  pose proof (find_available_port_world _ _ _ _ _ Hfind) as ->.
  destruct (check_outcome (pid_file_name actual) actual
              (write_tested (port_reported port actual w)))
    as [[[]|e] w2] eqn:Hc;
    [intros [=]| |intros [=]].
  destruct (check_outcome_free _ _ _ _ Hc) as (Hfree & Hother & _).
  cbv zeta. destruct foreground.
  { intros H. apply launch_foreground_world in H as (_ & _ & _ & [=]). }
  rewrite launch_background_eq by done.
  intros H. apply background_outcome_success in H
    as (pid' & bp & ot & err & rest & Hsp & [= <-] & -> & Hfiles & Hprocs & _).
  split; [done|]. split; [done|]. split; [|split].
  - rewrite Hfiles. apply lookup_insert_eq.
  - intros g Hg Hwt. rewrite Hfiles, lookup_insert_ne by done.
    rewrite Hother by done. rewrite write_tested_files by done.
    by rewrite port_reported_files.
  - exists (child_proc (launch_cmd directory host remote actual w) pid
              (KeepsRunning bp ot)).
    rewrite Hprocs, lookup_insert_eq. done.
Qed.

(** ** Properties of [launch_server] *)

Lemma write_tested_port_reported_files port actual w :
  files (write_tested (port_reported port actual w))
  = files (write_tested w).
Proof.
  unfold write_tested. rewrite port_reported_files.
  destruct (files w !! ".write_test") as [[a content|]|];
    cbn [files set_files]; by rewrite ?port_reported_files.
Qed.

(** No process of the table holds a port that is not busy. *)
Lemma port_busy_false_procs port w pid p :
  port_busy port w = false → procs w !! pid = Some p →
  listens_on p ≠ Some port.
Proof.
  unfold port_busy. intros [_ H]%orb_false_iff Hp Hl.
  assert (Ht : existsb (λ kv, match listens_on kv.2 with
                              | Some q => q =? port
                              | None => false
                              end) (map_to_list (procs w)) = true).
  { apply existsb_map_to_list. exists pid, p. split; [done|].
    cbn [snd]. rewrite Hl. apply Z.eqb_refl. }
  congruence.
Qed.

(** X4. When the record at the chosen port's path holds ASCII text that
    names a PID which the probe finds running, [launch_server] reports
    "already running" and returns [None]: no child is spawned, no process
    is touched, no file but the one of the write test is touched, and the
    command exits with status 1. The port was found free: the recorded
    process, if it is in the table, does not hold it. *)
Theorem launch_abandons_on_live_record (directory : option string)
    (port : Z) (host : string) (foreground remote no_browser : bool)
    (w : world) (actual : Z) (content : string) (pid : Z) :
  find_available_port port 100 w = (Ret (Some actual), w) →
  files w !! pid_file_name actual = Some (RegFile true content) →
  PyText.ascii_text content = true →
  PyText.int (PyText.strip content) = Ret pid →
  is_process_running pid w = (Ret true, w) →
  ∃ w',
    launch_server directory port host foreground remote no_browser w
    = (Ret None, w')
    ∧ files w' = files (write_tested w)
    ∧ (∀ g, g ≠ ".write_test" → files w' !! g = files w !! g)
    ∧ procs w' = procs w ∧ spawns w' = spawns w
    ∧ trace w'
      = (trace (port_reported port actual w)
         ++ [EvPrint Stdout (MsgAlreadyRunning actual pid)])%list
    ∧ main (CliLaunch directory port host foreground remote no_browser) w
      = (1, w')
    ∧ (∀ p, procs w !! pid = Some p → listens_on p ≠ Some actual).
Proof.
  intros Hfind Hf _ Hint Hrun.
  rewrite is_process_running_eq in Hrun.
  destruct (in_pid_t pid) eqn:Hr; [|discriminate].
  injection Hrun as Hrun.
  assert (Hl : launch_server directory port host foreground remote
                 no_browser w
               = (Ret None,
                  log (EvPrint Stdout (MsgAlreadyRunning actual pid))
                    (write_tested (port_reported port actual w)))).
  { rewrite launch_server_eq, Hfind. unfold check_outcome.
    rewrite write_tested_files by apply pid_file_name_not_write_test.
    rewrite port_reported_files, Hf, Hint, Hr.
    by rewrite running_launch_world, Hrun. }
  eexists. split; [exact Hl|]. cbn [files procs spawns trace log].
  rewrite write_tested_port_reported_files, write_tested_procs,
    write_tested_spawns, write_tested_trace,
    port_reported_procs, port_reported_spawns.
  split; [done|]. split; [intros g Hg; by apply write_tested_files|].
  split; [done|]. split; [done|]. split; [done|].
  split; [unfold main; by rewrite Hl|].
  intros p Hp. apply find_available_port_some in Hfind as (_ & _ & Hbusy).
  by apply (port_busy_false_procs actual w pid).
Qed.

Lemma launch_abandons_on_live_record_witness :
  find_available_port 4444 100 live_record_world
  = (Ret (Some 4444), live_record_world)
  ∧ files live_record_world !! pid_file_name 4444 = Some (RegFile true "500")
  ∧ PyText.ascii_text "500" = true
  ∧ PyText.int (PyText.strip "500") = Ret 500
  ∧ is_process_running 500 live_record_world = (Ret true, live_record_world)
  ∧ ∃ w',
      launch_server None 4444 "127.0.0.1" false false true live_record_world
      = (Ret None, w')
      ∧ files w' = files (write_tested live_record_world)
      ∧ (∀ g, g ≠ ".write_test" →
              files w' !! g = files live_record_world !! g)
      ∧ procs w' = procs live_record_world
      ∧ spawns w' = spawns live_record_world
      ∧ trace w'
        = (trace (port_reported 4444 4444 live_record_world)
           ++ [EvPrint Stdout (MsgAlreadyRunning 4444 500)])%list
      ∧ main (CliLaunch None 4444 "127.0.0.1" false false true)
          live_record_world
        = (1, w')
      ∧ (∀ p, procs live_record_world !! 500 = Some p →
              listens_on p ≠ Some 4444).
Proof.
  assert (H1 : find_available_port 4444 100 live_record_world
               = (Ret (Some 4444), live_record_world))
    by (vm_compute; reflexivity).
  assert (H2 : files live_record_world !! pid_file_name 4444
               = Some (RegFile true "500")) by (vm_compute; reflexivity).
  assert (H3 : PyText.int (PyText.strip "500") = Ret 500)
    by (vm_compute; reflexivity).
  assert (H4 : is_process_running 500 live_record_world
               = (Ret true, live_record_world)) by (vm_compute; reflexivity).
  split; [exact H1|]. split; [exact H2|]. split; [reflexivity|].
  split; [exact H3|]. split; [exact H4|].
  exact (launch_abandons_on_live_record None 4444 "127.0.0.1" false false
           true live_record_world 4444 "500" 500 H1 H2 eq_refl H3 H4).
Defined.

(** X5. When the record at the chosen port's path cannot be read, or holds
    ASCII text and is stale - the text is malformed, or the probe says its
    PID is not running - [launch_server] unlinks it and goes on to start
    the child: the launch continues, in foreground or background mode, in
    the world where the write test has been made and the path of the
    record is free. *)
Theorem launch_clears_stale_record (directory : option string)
    (port : Z) (host : string) (foreground remote no_browser : bool)
    (w : world) (actual : Z) (accessible : bool) (content : string) :
  find_available_port port 100 w = (Ret (Some actual), w) →
  files w !! pid_file_name actual = Some (RegFile accessible content) →
  accessible = false
  ∨ (PyText.ascii_text content = true ∧ record_stale content w) →
  let w1 := unlinked (pid_file_name actual)
              (write_tested (port_reported port actual w)) in
  let cmd := launch_cmd directory host remote actual w in
  files w1 !! pid_file_name actual = None
  ∧ (∀ g, g ≠ pid_file_name actual → g ≠ ".write_test" →
          files w1 !! g = files w !! g)
  ∧ launch_server directory port host foreground remote no_browser w
    = if foreground
      then launch_foreground cmd (serve_dir_of directory w) actual w1
      else launch_background cmd (serve_dir_of directory w)
             (pid_file_name actual) actual no_browser w1.
Proof.
  intros Hfind Hf Hstale w1 cmd.
  split; [apply lookup_delete_eq|]. split.
  { intros g Hg Hwt. unfold w1. cbn [files unlinked log set_files].
    rewrite lookup_delete_ne by done.
    rewrite write_tested_files by done. by rewrite port_reported_files. }
  rewrite launch_server_eq, Hfind.
  assert (Hc : check_outcome (pid_file_name actual) actual
                 (write_tested (port_reported port actual w))
               = (Ret false, w1)).
  { unfold check_outcome.
    rewrite write_tested_files by apply pid_file_name_not_write_test.
    rewrite port_reported_files, Hf.
    destruct accessible; [|reflexivity].
    destruct Hstale as [[=]|[_ [Hmal|(pid & Hint & Hrun)]]].
    - by rewrite Hmal.
    - rewrite Hint. apply probe_false_inv in Hrun as [-> Hrun].
      by rewrite running_launch_world, Hrun. }
  by rewrite Hc.
Qed.

Lemma launch_clears_stale_record_witness :
  find_available_port 4444 100 stale_record_world
  = (Ret (Some 4444), stale_record_world)
  ∧ files stale_record_world !! pid_file_name 4444
    = Some (RegFile true "777")
  ∧ (true = false
     ∨ (PyText.ascii_text "777" = true
        ∧ record_stale "777" stale_record_world))
  ∧ let w1 := unlinked (pid_file_name 4444)
                (write_tested (port_reported 4444 4444 stale_record_world)) in
    let cmd := launch_cmd None "127.0.0.1" false 4444 stale_record_world in
    files w1 !! pid_file_name 4444 = None
    ∧ (∀ g, g ≠ pid_file_name 4444 → g ≠ ".write_test" →
            files w1 !! g = files stale_record_world !! g)
    ∧ launch_server None 4444 "127.0.0.1" false false true stale_record_world
      = if false
        then launch_foreground cmd (serve_dir_of None stale_record_world)
               4444 w1
        else launch_background cmd (serve_dir_of None stale_record_world)
               (pid_file_name 4444) 4444 true w1.
Proof.
  assert (H1 : find_available_port 4444 100 stale_record_world
               = (Ret (Some 4444), stale_record_world))
    by (vm_compute; reflexivity).
  assert (H2 : files stale_record_world !! pid_file_name 4444
               = Some (RegFile true "777")) by (vm_compute; reflexivity).
  assert (H3 : true = false
               ∨ (PyText.ascii_text "777" = true
                  ∧ record_stale "777" stale_record_world)).
  { right. split; [reflexivity|]. right. exists 777.
    split; vm_compute; reflexivity. }
  split; [exact H1|]. split; [exact H2|]. split; [exact H3|].
  exact (launch_clears_stale_record None 4444 "127.0.0.1" false false true
           stale_record_world 4444 true "777" H1 H2 H3).
Defined.

(** ** Reading a record at its three call sites *)

(** C7 (as amended). Let a record file hold ASCII text. The three readers
    - the check of [launch_server], the loop of [status_server] and the
    loop body of [kill_server] - parse it with [int(text.strip())]. They
    obtain a PID exactly when the text, without its surrounding whitespace,
    is an integer literal as Python's [int] accepts it: an optional sign,
    then at most 4300 decimal digits that single underscores may group; the
    PID is the value of the literal, negative after a minus sign, and it is
    this PID that is probed, reported or signalled. Every other text is
    malformed ([ValueError]), and each reader then unlinks the file and
    goes on without the record: the launch continues, [status_server]
    puts the file on its stale list and has unlinked it when it returns,
    [kill_server] counts a failure and turns to the next target. In
    particular a non-negative decimal integer of at most 4300 digits is
    read as its value. *)
Theorem read_record_accepts_int_literals (w : world) (f content : string) :
  files w !! f = Some (RegFile true content) →
  PyText.ascii_text content = true →
  (∀ pid, PyText.int (PyText.strip content) = Ret pid
          ↔ int_literal (PyText.strip content) pid)
  ∧ (∀ pid, int_literal (PyText.strip content) pid →
       (∀ port,
          check_existing f port w
          = if in_pid_t pid
            then if running w pid
                 then (Ret true,
                       log (EvPrint Stdout (MsgAlreadyRunning port pid)) w)
                 else (Ret false, unlinked f w)
            else (Raise OverflowError, w))
       ∧ (∀ rest rv sf,
            status_loop (f :: rest) rv sf w
            = if in_pid_t pid
              then if running w pid
                   then status_loop rest (rv ++ [(pid, port_of f)])%list sf w
                   else status_loop rest rv (sf ++ [f])%list w
              else (Raise OverflowError, w))
       ∧ (∀ port c,
            plain_record w content = true → in_pid_t pid = true →
            procs w !! pid = None →
            kill_body port f (c, w)
            = (Ret Continue,
               (c, unlinked f (log (EvPrint Stdout (MsgNotFound pid)) w)))))
  ∧ ((∀ pid, ¬ int_literal (PyText.strip content) pid) →
     PyText.int (PyText.strip content) = Raise ValueError
     ∧ (∀ port, check_existing f port w = (Ret false, unlinked f w))
     ∧ (∀ rest rv sf,
          status_loop (f :: rest) rv sf w
          = status_loop rest rv (sf ++ [f])%list w)
     ∧ (∀ directory l w',
          matches_pid_glob f = true → ascii_records w = true →
          status_server directory w = (Ret l, w') →
          files w' !! f = None ∧ live_entry w f = None)
     ∧ (∀ port c,
          kill_body port f (c, w)
          = (Ret Continue,
             (add_failed c,
              unlinked f (log (EvPrint Stderr (MsgInvalidPidFile f)) w)))))
  ∧ (nonneg_decimal content = true →
     (String.length (PyText.strip content) ≤ PyText.int_max_str_digits)%nat →
     int_literal (PyText.strip content) (dec_value (PyText.strip content))
     ∧ 0 <= dec_value (PyText.strip content)).
Proof.
  intros Hf Hascii.
  assert (Hiff : ∀ pid, PyText.int (PyText.strip content) = Ret pid
                        ↔ int_literal (PyText.strip content) pid).
  { intros pid. rewrite int_literal_iff, strip_idem. tauto. }
  split; [exact Hiff|]. split; [|split].
  - intros pid Hint%Hiff. split; [|split].
    + intros port. rewrite check_existing_eq. unfold check_outcome.
      rewrite Hf, Hint.
      destruct (in_pid_t pid); [destruct (running w pid)|]; reflexivity.
    + intros rest rv sf. rewrite !status_loop_eq. cbn [classify].
      unfold status_step. rewrite Hf, Hint.
      destruct (in_pid_t pid); [destruct (running w pid)|]; reflexivity.
    + intros port c Hplain Hr Hp. by apply (kill_body_not_found _ _ content).
  - intros Hno.
    assert (Hint : PyText.int (PyText.strip content) = Raise ValueError).
    { destruct (PyText.int (PyText.strip content)) as [pid|e] eqn:Hint.
      - destruct (Hno pid). by apply Hiff.
      - by apply int_raise in Hint as ->. }
    split; [exact Hint|]. split; [|split; [|split]].
    + intros port. rewrite check_existing_eq. unfold check_outcome.
      by rewrite Hf, Hint.
    + intros rest rv sf. rewrite !status_loop_eq. cbn [classify].
      unfold status_step. by rewrite Hf, Hint.
    + intros directory l w' Hm _ Hs.
      assert (Hstep : status_step w f = Ret None).
      { unfold status_step. by rewrite Hf, Hint. }
      split; [|unfold live_entry; by rewrite Hstep].
      apply status_server_ret in Hs as [_ [m ->]].
      cbn [files log]. rewrite unlinked_all_files.
      rewrite bool_decide_eq_true_2; [done|].
      unfold stale_files_of. apply list_elem_of_filter. split.
      * unfold is_stale.
        rewrite status_step_write_tested by by apply record_not_write_test.
        by rewrite Hstep.
      * apply elem_of_record_files_write_tested, elem_of_record_files.
        split; [done|]. by rewrite Hf.
    + intros port c. rewrite (kill_body_present _ _ _ _ _ Hf).
      * unfold kill_outcome. by rewrite Hint.
      * unfold plain_targets. cbn [forallb]. rewrite Hf.
        unfold plain_record. by rewrite Hascii, Hint.
  - intros Hdec Hlen. unfold nonneg_decimal in Hdec.
    apply andb_true_iff in Hdec as [Hne Hd].
    split; [|by apply dec_value_acc_nonneg].
    right. right. exists (PyText.strip content), [].
    simpl. rewrite string_app_nil_r. repeat split; auto.
    intros E. rewrite E in Hne. discriminate.
Qed.

Lemma read_record_accepts_int_literals_witness :
  files stale_record_world !! "fileserver.4444.pid"
  = Some (RegFile true "777")
  ∧ PyText.ascii_text "777" = true
  ∧ int_literal (PyText.strip "777") 777
  ∧ check_existing "fileserver.4444.pid" 4444 stale_record_world
    = (Ret false, unlinked "fileserver.4444.pid" stale_record_world)
  ∧ status_loop ["fileserver.4444.pid"] [] [] stale_record_world
    = (Ret ([], ["fileserver.4444.pid"]), stale_record_world).
Proof.
  assert (H1 : files stale_record_world !! "fileserver.4444.pid"
               = Some (RegFile true "777")) by reflexivity.
  assert (H2 : PyText.ascii_text "777" = true) by reflexivity.
  destruct (read_record_accepts_int_literals stale_record_world
              "fileserver.4444.pid" "777" H1 H2) as (Hiff & Hlit & _).
  assert (H3 : int_literal (PyText.strip "777") 777).
  { apply Hiff. vm_compute. reflexivity. }
  destruct (Hlit 777 H3) as (Hc & Hs & _).
  split; [exact H1|]. split; [exact H2|]. split; [exact H3|]. split.
  - rewrite (Hc 4444). reflexivity.
  - rewrite (Hs [] [] []). reflexivity.
Defined.

(** C7 (counterexample). The text [-5] is not a non-negative decimal
    integer, yet reading it does not report "malformed": it yields the
    PID -5. *)
Lemma read_record_negative_pid :
  nonneg_decimal "-5" = false
  ∧ PyText.int (PyText.strip "-5") = Ret (-5).
Proof. split; reflexivity. Qed.
